(** * static-fm-app: the overlay page and its three revisions

    The repository's logic lives in one Svelte page, [routes/+page.svelte],
    present in three revisions:

    - [Legacy]   ([src/routes/+page.svelte]): Web Audio analyser, metadata
      polled from the status endpoint, no reconnect;
    - [WebAudio] ([unnamed/part_000]): Web Audio analyser, metadata pushed by
      the host ([song-info-update]), liveness probe and [reconnectAudio];
    - [Wavtools] ([unnamed/part_001]): the analyser wrapped by the
      [AudioAnalysis] class of [$lib/visualizations/wavtools], explicit
      pad/truncate of the published vector, frame cancellation in [initAudio].

    The page is embedded as state-passing code over one record, [World]: the
    module-level variables of the page together with the part of the browser
    the page talks to (pending animation frames, timers, console, and a
    chronological trace of the calls made to the platform and to the host).
    Handlers run to completion; a promise that the page awaits settles with the
    [reply] given to the handler, and no other callback runs in between.
    The markup and the style sheet are left out, and so is the cleanup
    function [onMount] returns, which ends the page. *)

From Stdlib Require Import Bool Arith ZArith QArith List String Lia.
Import ListNotations.

Local Open Scope string_scope.
Local Open Scope list_scope.
Local Open Scope nat_scope.

(** ** JavaScript values held in the metadata fields *)

Inductive JsVal : Type :=
| JUndefined
| JNull
| JString (s : string).

(** [ToBoolean]: [undefined], [null] and the empty string are falsy. *)
Definition truthy (v : JsVal) : bool :=
  match v with
  | JString s => negb (String.eqb s "")
  | _ => false
  end.

(** [a || b] *)
Definition js_or (a b : JsVal) : JsVal := if truthy a then a else b.

(** [interface SongInfo { title; artist }]; also the shape of [currentSong]
    and of an element of [icestats.source]. The fields are JavaScript values:
    at run time the declared [string] may be [null] or missing. *)
Record SongInfo : Type := { title : JsVal; artist : JsVal }.

(** ** Platform objects *)

Inductive ContextState : Type := Suspended | Running | Closed.

Record AnalyserNode : Type :=
  { fftSize : nat; smoothingTimeConstant : Q }.

(** [AnalyserNode.frequencyBinCount] is half the FFT size. *)
Definition frequencyBinCount (a : AnalyserNode) : nat := fftSize a / 2.

Record AudioEl : Type :=
  { src : string;
    crossOrigin : option string;
    volume : Q;
    readyState : nat;
    paused : bool }.

(** [new Audio()] *)
Definition new_Audio : AudioEl :=
  {| src := ""; crossOrigin := None; volume := 1; readyState := 0;
     paused := true |}.

(** The [AudioAnalysis] object of wavtools, as far as the page sees it: a
    handle on the element it was constructed over. *)
Record AudioAnalysis : Type := { analysed : AudioEl }.

Inductive Callback : Type := ReconnectAudio | FetchCurrentSong | AudioCheck.

Inductive InvokeArg : Type := ArgFlag (flag : bool) | ArgColor (color : string).

(** Calls that leave the page, in the order they are made. [Entered] marks
    control entering a page function, so that its invocations can be counted. *)
Inductive Effect : Type :=
| NewAudioContext
| ContextClose
| ContextResume
| AnalysisResume
| NewAudio
| ElementPause
| ElementPlay
| RequestFrame (id : nat)
| CancelFrame (id : nat)
| SetTimeout (cb : Callback) (ms : Z)
| SetInterval (cb : Callback) (ms : Z)
| Listen (event : string)
| Fetch (url : string)
| WindowSetAlwaysOnTop (flag : bool)
| WindowSetIgnoreCursorEvents (flag : bool)
| WindowStartDragging
| WindowHide
| Invoke (cmd : string) (arg : InvokeArg)
| Entered (f : Callback).

Inductive LogLevel : Type := LogInfo | LogError.

(** ** The page's variables and the browser around them *)

Record World : Type :=
  { (* module-level variables (the union over the three revisions; a
       revision never touches a variable it does not declare) *)
    audioContext : option ContextState;
    analyser : option AnalyserNode;
    audioAnalysis : option AudioAnalysis;
    audioElement : option AudioEl;
    animationFrameId : option nat;
    bars : list Z;
    frequencyValues : list Q;
    currentSong : SongInfo;
    themeColor : string;
    isPinned : bool;
    isMousePassthrough : bool;
    isPlaying : bool;
    (* browser *)
    frames : list nat;             (* pending requestAnimationFrame ids *)
    nextFrame : nat;               (* next id handed out *)
    timers : list (Callback * Z);  (* pending setTimeout callbacks, delay in ms *)
    console : list (LogLevel * string);
    trace : list Effect }.

Definition set_audioContext (v : option ContextState) (w : World) : World :=
  {| audioContext := v; analyser := analyser w;
     audioAnalysis := audioAnalysis w; audioElement := audioElement w;
     animationFrameId := animationFrameId w; bars := bars w;
     frequencyValues := frequencyValues w; currentSong := currentSong w;
     themeColor := themeColor w; isPinned := isPinned w;
     isMousePassthrough := isMousePassthrough w; isPlaying := isPlaying w;
     frames := frames w; nextFrame := nextFrame w; timers := timers w;
     console := console w; trace := trace w |}.

Definition set_analyser (v : option AnalyserNode) (w : World) : World :=
  {| audioContext := audioContext w; analyser := v;
     audioAnalysis := audioAnalysis w; audioElement := audioElement w;
     animationFrameId := animationFrameId w; bars := bars w;
     frequencyValues := frequencyValues w; currentSong := currentSong w;
     themeColor := themeColor w; isPinned := isPinned w;
     isMousePassthrough := isMousePassthrough w; isPlaying := isPlaying w;
     frames := frames w; nextFrame := nextFrame w; timers := timers w;
     console := console w; trace := trace w |}.

Definition set_audioAnalysis (v : option AudioAnalysis) (w : World) : World :=
  {| audioContext := audioContext w; analyser := analyser w;
     audioAnalysis := v; audioElement := audioElement w;
     animationFrameId := animationFrameId w; bars := bars w;
     frequencyValues := frequencyValues w; currentSong := currentSong w;
     themeColor := themeColor w; isPinned := isPinned w;
     isMousePassthrough := isMousePassthrough w; isPlaying := isPlaying w;
     frames := frames w; nextFrame := nextFrame w; timers := timers w;
     console := console w; trace := trace w |}.

Definition set_audioElement (v : option AudioEl) (w : World) : World :=
  {| audioContext := audioContext w; analyser := analyser w;
     audioAnalysis := audioAnalysis w; audioElement := v;
     animationFrameId := animationFrameId w; bars := bars w;
     frequencyValues := frequencyValues w; currentSong := currentSong w;
     themeColor := themeColor w; isPinned := isPinned w;
     isMousePassthrough := isMousePassthrough w; isPlaying := isPlaying w;
     frames := frames w; nextFrame := nextFrame w; timers := timers w;
     console := console w; trace := trace w |}.

Definition set_animationFrameId (v : option nat) (w : World) : World :=
  {| audioContext := audioContext w; analyser := analyser w;
     audioAnalysis := audioAnalysis w; audioElement := audioElement w;
     animationFrameId := v; bars := bars w;
     frequencyValues := frequencyValues w; currentSong := currentSong w;
     themeColor := themeColor w; isPinned := isPinned w;
     isMousePassthrough := isMousePassthrough w; isPlaying := isPlaying w;
     frames := frames w; nextFrame := nextFrame w; timers := timers w;
     console := console w; trace := trace w |}.

Definition set_bars (v : list Z) (w : World) : World :=
  {| audioContext := audioContext w; analyser := analyser w;
     audioAnalysis := audioAnalysis w; audioElement := audioElement w;
     animationFrameId := animationFrameId w; bars := v;
     frequencyValues := frequencyValues w; currentSong := currentSong w;
     themeColor := themeColor w; isPinned := isPinned w;
     isMousePassthrough := isMousePassthrough w; isPlaying := isPlaying w;
     frames := frames w; nextFrame := nextFrame w; timers := timers w;
     console := console w; trace := trace w |}.

Definition set_frequencyValues (v : list Q) (w : World) : World :=
  {| audioContext := audioContext w; analyser := analyser w;
     audioAnalysis := audioAnalysis w; audioElement := audioElement w;
     animationFrameId := animationFrameId w; bars := bars w;
     frequencyValues := v; currentSong := currentSong w;
     themeColor := themeColor w; isPinned := isPinned w;
     isMousePassthrough := isMousePassthrough w; isPlaying := isPlaying w;
     frames := frames w; nextFrame := nextFrame w; timers := timers w;
     console := console w; trace := trace w |}.

Definition set_currentSong (v : SongInfo) (w : World) : World :=
  {| audioContext := audioContext w; analyser := analyser w;
     audioAnalysis := audioAnalysis w; audioElement := audioElement w;
     animationFrameId := animationFrameId w; bars := bars w;
     frequencyValues := frequencyValues w; currentSong := v;
     themeColor := themeColor w; isPinned := isPinned w;
     isMousePassthrough := isMousePassthrough w; isPlaying := isPlaying w;
     frames := frames w; nextFrame := nextFrame w; timers := timers w;
     console := console w; trace := trace w |}.

Definition set_themeColor (v : string) (w : World) : World :=
  {| audioContext := audioContext w; analyser := analyser w;
     audioAnalysis := audioAnalysis w; audioElement := audioElement w;
     animationFrameId := animationFrameId w; bars := bars w;
     frequencyValues := frequencyValues w; currentSong := currentSong w;
     themeColor := v; isPinned := isPinned w;
     isMousePassthrough := isMousePassthrough w; isPlaying := isPlaying w;
     frames := frames w; nextFrame := nextFrame w; timers := timers w;
     console := console w; trace := trace w |}.

Definition set_isPinned (v : bool) (w : World) : World :=
  {| audioContext := audioContext w; analyser := analyser w;
     audioAnalysis := audioAnalysis w; audioElement := audioElement w;
     animationFrameId := animationFrameId w; bars := bars w;
     frequencyValues := frequencyValues w; currentSong := currentSong w;
     themeColor := themeColor w; isPinned := v;
     isMousePassthrough := isMousePassthrough w; isPlaying := isPlaying w;
     frames := frames w; nextFrame := nextFrame w; timers := timers w;
     console := console w; trace := trace w |}.

Definition set_isMousePassthrough (v : bool) (w : World) : World :=
  {| audioContext := audioContext w; analyser := analyser w;
     audioAnalysis := audioAnalysis w; audioElement := audioElement w;
     animationFrameId := animationFrameId w; bars := bars w;
     frequencyValues := frequencyValues w; currentSong := currentSong w;
     themeColor := themeColor w; isPinned := isPinned w;
     isMousePassthrough := v; isPlaying := isPlaying w; frames := frames w;
     nextFrame := nextFrame w; timers := timers w; console := console w;
     trace := trace w |}.

Definition set_isPlaying (v : bool) (w : World) : World :=
  {| audioContext := audioContext w; analyser := analyser w;
     audioAnalysis := audioAnalysis w; audioElement := audioElement w;
     animationFrameId := animationFrameId w; bars := bars w;
     frequencyValues := frequencyValues w; currentSong := currentSong w;
     themeColor := themeColor w; isPinned := isPinned w;
     isMousePassthrough := isMousePassthrough w; isPlaying := v;
     frames := frames w; nextFrame := nextFrame w; timers := timers w;
     console := console w; trace := trace w |}.

Definition set_frames (v : list nat) (w : World) : World :=
  {| audioContext := audioContext w; analyser := analyser w;
     audioAnalysis := audioAnalysis w; audioElement := audioElement w;
     animationFrameId := animationFrameId w; bars := bars w;
     frequencyValues := frequencyValues w; currentSong := currentSong w;
     themeColor := themeColor w; isPinned := isPinned w;
     isMousePassthrough := isMousePassthrough w; isPlaying := isPlaying w;
     frames := v; nextFrame := nextFrame w; timers := timers w;
     console := console w; trace := trace w |}.

Definition set_nextFrame (v : nat) (w : World) : World :=
  {| audioContext := audioContext w; analyser := analyser w;
     audioAnalysis := audioAnalysis w; audioElement := audioElement w;
     animationFrameId := animationFrameId w; bars := bars w;
     frequencyValues := frequencyValues w; currentSong := currentSong w;
     themeColor := themeColor w; isPinned := isPinned w;
     isMousePassthrough := isMousePassthrough w; isPlaying := isPlaying w;
     frames := frames w; nextFrame := v; timers := timers w;
     console := console w; trace := trace w |}.

Definition set_timers (v : list (Callback * Z)) (w : World) : World :=
  {| audioContext := audioContext w; analyser := analyser w;
     audioAnalysis := audioAnalysis w; audioElement := audioElement w;
     animationFrameId := animationFrameId w; bars := bars w;
     frequencyValues := frequencyValues w; currentSong := currentSong w;
     themeColor := themeColor w; isPinned := isPinned w;
     isMousePassthrough := isMousePassthrough w; isPlaying := isPlaying w;
     frames := frames w; nextFrame := nextFrame w; timers := v;
     console := console w; trace := trace w |}.

Definition set_console (v : list (LogLevel * string)) (w : World) : World :=
  {| audioContext := audioContext w; analyser := analyser w;
     audioAnalysis := audioAnalysis w; audioElement := audioElement w;
     animationFrameId := animationFrameId w; bars := bars w;
     frequencyValues := frequencyValues w; currentSong := currentSong w;
     themeColor := themeColor w; isPinned := isPinned w;
     isMousePassthrough := isMousePassthrough w; isPlaying := isPlaying w;
     frames := frames w; nextFrame := nextFrame w; timers := timers w;
     console := v; trace := trace w |}.

Definition set_trace (v : list Effect) (w : World) : World :=
  {| audioContext := audioContext w; analyser := analyser w;
     audioAnalysis := audioAnalysis w; audioElement := audioElement w;
     animationFrameId := animationFrameId w; bars := bars w;
     frequencyValues := frequencyValues w; currentSong := currentSong w;
     themeColor := themeColor w; isPinned := isPinned w;
     isMousePassthrough := isMousePassthrough w; isPlaying := isPlaying w;
     frames := frames w; nextFrame := nextFrame w; timers := timers w;
     console := console w; trace := v |}.

(** ** Handlers as state-passing code that may throw *)

Inductive outcome (A : Type) : Type :=
| Ok (a : A)
| Throw (e : string).
Arguments Ok {A} a.
Arguments Throw {A} e.

(** What the platform answers to a call: it returns (the promise resolves),
    or it throws (the promise rejects). *)
Inductive reply : Type := Fine | Fails (e : string).

Definition M (A : Type) : Type := World -> outcome A * World.

Definition ret {A : Type} (a : A) : M A := fun w => (Ok a, w).

Definition bind {A B : Type} (m : M A) (k : A -> M B) : M B :=
  fun w =>
    match m w with
    | (Ok a, w') => k a w'
    | (Throw e, w') => (Throw e, w')
    end.

Definition throw {A : Type} (e : string) : M A := fun w => (Throw e, w).

Notation "x <- m ;; k" := (bind m (fun x => k))
  (at level 61, m at next level, right associativity).
Notation "m ;; k" := (bind m (fun _ => k))
  (at level 61, right associativity).

(** [try { body } catch (e) { handler }] *)
Definition try_catch (body : M unit) (handler : string -> M unit) : M unit :=
  fun w =>
    match body w with
    | (Ok a, w') => (Ok a, w')
    | (Throw e, w') => handler e w'
    end.

Definition get {A : Type} (f : World -> A) : M A := fun w => (Ok (f w), w).
Definition modify (f : World -> World) : M unit := fun w => (Ok tt, f w).

(** [await p] (or a synchronous platform call) with the platform's reply. *)
Definition await (r : reply) : M unit :=
  match r with
  | Fine => ret tt
  | Fails e => throw e
  end.

(** A call whose result the platform decides. *)
Definition platform {A : Type} (o : outcome A) : M A := fun w => (o, w).

(** The world a handler leaves behind. *)
Definition exec {A : Type} (m : M A) (w : World) : World := snd (m w).

(** Calling an [async] function without awaiting it: the caller goes on
    whatever the callee's promise does; a rejection stays unhandled. *)
Definition spawn (m : M unit) : M unit := fun w => (Ok tt, exec m w).

Definition emit (e : Effect) : M unit :=
  modify (fun w => set_trace (trace w ++ [e]) w).

Definition console_error (msg e : string) : M unit :=
  modify (fun w =>
    set_console (console w ++ [(LogError, (msg ++ " " ++ e)%string)]) w).

Definition console_log (msg : string) : M unit :=
  modify (fun w => set_console (console w ++ [(LogInfo, msg)]) w).

Definition requestAnimationFrame : M nat :=
  fun w =>
    let id := nextFrame w in
    (Ok id,
     set_trace (trace w ++ [RequestFrame id])
       (set_nextFrame (S id) (set_frames (frames w ++ [id]) w))).

Definition cancelAnimationFrame (id : nat) : M unit :=
  modify (fun w =>
    set_trace (trace w ++ [CancelFrame id])
      (set_frames (filter (fun i => negb (Nat.eqb i id)) (frames w)) w)).

Definition setTimeout (cb : Callback) (ms : Z) : M unit :=
  modify (fun w =>
    set_trace (trace w ++ [SetTimeout cb ms])
      (set_timers (timers w ++ [(cb, ms)]) w)).

(** [audioElement.pause()] on the element the variable refers to. *)
Definition element_pause (el : AudioEl) : M unit :=
  emit ElementPause ;;
  modify (set_audioElement
    (Some {| src := src el; crossOrigin := crossOrigin el; volume := volume el;
             readyState := readyState el; paused := true |})).

(** [audioElement.play()]; the promise it returns is given a [.catch], see
    [on_play_rejected]. *)
Definition element_play (el : AudioEl) : M unit :=
  emit ElementPlay ;;
  modify (set_audioElement
    (Some {| src := src el; crossOrigin := crossOrigin el; volume := volume el;
             readyState := readyState el; paused := false |})).

Definition streamUrl : string := "https://radio.startend.xyz/radio".

(** ** Code shared verbatim by the revisions *)

(** The three listeners [initAudio] puts on the element (part_000 and
    part_001), and the [.catch] of the play promise. *)
Definition on_error (e : string) : M unit :=
  console_error "音频播放错误:" e ;;
  modify (set_isPlaying false).

Definition on_playing : M unit := modify (set_isPlaying true).

Definition on_pause : M unit := modify (set_isPlaying false).

Definition on_play_rejected (e : string) : M unit :=
  console_error "播放失败:" e ;;
  modify (set_isPlaying false).

(** [async function setAlwaysOnTop(flag)]; [win] and [host] are the replies
    of [appWindow.setAlwaysOnTop] and of [invoke('set_always_on_top')]. *)
Definition setAlwaysOnTop (win host : reply) (flag : bool) : M unit :=
  modify (set_isPinned flag) ;;
  emit (WindowSetAlwaysOnTop flag) ;;
  await win ;;
  emit (Invoke "set_always_on_top" (ArgFlag flag)) ;;
  await host.

(** [async function setMousePassthrough(flag)] *)
Definition setMousePassthrough (win host : reply) (flag : bool) : M unit :=
  modify (set_isMousePassthrough flag) ;;
  emit (WindowSetIgnoreCursorEvents flag) ;;
  await win ;;
  emit (Invoke "set_mouse_passthrough" (ArgFlag flag)) ;;
  await host.

(** [async function changeThemeColor(color)] *)
Definition changeThemeColor (host : reply) (color : string) : M unit :=
  modify (set_themeColor color) ;;
  emit (Invoke "change_theme_color" (ArgColor color)) ;;
  await host.

(** [onclick={() => setAlwaysOnTop(!isPinned)}] *)
Definition click_pin (win host : reply) : M unit :=
  pinned <- get isPinned ;;
  spawn (setAlwaysOnTop win host (negb pinned)).

(** [onclick={() => setMousePassthrough(!isMousePassthrough)}] *)
Definition click_passthrough (win host : reply) : M unit :=
  pass <- get isMousePassthrough ;;
  spawn (setMousePassthrough win host (negb pass)).

(** [function startDrag()] and [async function minimizeWindow()] *)
Definition startDrag : M unit := emit WindowStartDragging.
Definition minimizeWindow (win : reply) : M unit := emit WindowHide ;; await win.

(** The [song-info-update] listener (part_000 and part_001). *)
Definition on_song_info_update (payload : SongInfo) : M unit :=
  modify (set_currentSong
    {| title := js_or (title payload) (JString "Unknown Title");
       artist := js_or (artist payload) (JString "Unknown Artist") |}).

(** [async function reconnectAudio()], the same text in part_000 and
    part_001; [initAudio] is the revision's own. The first line records the
    entry into the function in the trace. *)
Definition reconnectAudio (initAudio : M unit) : M unit :=
  emit (Entered ReconnectAudio) ;;
  try_catch
    (el <- get audioElement ;;
     match el with
     | Some e => element_pause e
     | None => ret tt
     end ;;
     initAudio)
    (fun e =>
       console_error "重新连接音频失败:" e ;;
       (* 5秒后重试 *)
       setTimeout ReconnectAudio 5000%Z).

(** The variables as the page declares them, in a browser that has handed
    out no frame yet. [bars] is [Array(64).fill(0)], [frequencyValues] is
    [new Float32Array(64)]. *)
Definition initial : World :=
  {| audioContext := None; analyser := None; audioAnalysis := None;
     audioElement := None; animationFrameId := None;
     bars := repeat 0%Z 64; frequencyValues := repeat 0%Q 64;
     currentSong := {| title := JString "Loading..."; artist := JString "" |};
     themeColor := "#3498db"; isPinned := true; isMousePassthrough := false;
     isPlaying := false;
     frames := []; nextFrame := 1; timers := []; console := []; trace := [] |}.

(** ** Typed arrays *)

(** [new Float32Array(n)] *)
Definition Float32Array (n : nat) : list Q := repeat 0%Q n.

(** [values.slice(0, n)] *)
Definition slice0 {A : Type} (n : nat) (values : list A) : list A :=
  firstn n values.

(** [target.set(source)]: copies [source] over the start of [target]; a
    source longer than the target is a [RangeError]. *)
Definition typed_set (target source : list Q) : M (list Q) :=
  if List.length source <=? List.length target
  then ret (source ++ skipn (List.length source) target)
  else throw "RangeError: offset is out of bounds".

(** [if (animationFrameId)]: [null] and [0] are falsy. *)
Definition truthy_id (id : option nat) : option nat :=
  match id with
  | Some (S n) => Some (S n)
  | _ => None
  end.

(** ** Browser events common to the revisions *)

(** The browser runs the callback of a pending frame and forgets the frame;
    a cancelled or unknown id runs nothing. *)
Definition frame_fires (id : nat) (tick : M unit) : M unit :=
  pending <- get frames ;;
  if existsb (Nat.eqb id) pending
  then
    modify (fun w =>
      set_frames (filter (fun i => negb (Nat.eqb i id)) (frames w)) w) ;;
    tick
  else ret tt.

(** A pending [setTimeout(reconnectAudio, 5000)] comes due. *)
Definition timer_fires (reconnect : M unit) : M unit :=
  pending <- get timers ;;
  match pending with
  | (ReconnectAudio, _) :: rest => modify (set_timers rest) ;; spawn reconnect
  | _ => ret tt
  end.

(** The element the page holds reports a new [readyState]. *)
Definition media_ready (state : nat) : M unit :=
  el <- get audioElement ;;
  match el with
  | Some e =>
      modify (set_audioElement
        (Some {| src := src e; crossOrigin := crossOrigin e;
                 volume := volume e; readyState := state;
                 paused := paused e |}))
  | None => ret tt
  end.

(** ** Revision part_001: the analyser behind wavtools' [AudioAnalysis] *)

Module Wavtools.

(** [function updateVisualization()]. [pull] is what
    [audioAnalysis.getFrequencies('frequency', -100, -30)] does at this call:
    it returns an object whose [values] is the given vector, or it throws.
    [resumeIfSuspended()] is called without [await]: whatever its promise
    does, the tick goes on. *)
Definition updateVisualization (pull : outcome (list Q)) : M unit :=
  analysis <- get audioAnalysis ;;
  match analysis with
  | None => ret tt
  | Some _ =>
      try_catch
        (emit AnalysisResume ;;
         values <- platform pull ;;
         (if 64 <=? List.length values
          then modify (set_frequencyValues (slice0 64 values))
          else
            paddedValues <- typed_set (Float32Array 64) values ;;
            modify (set_frequencyValues paddedValues)) ;;
         id <- requestAnimationFrame ;;
         modify (set_animationFrameId (Some id)))
        (fun e =>
           console_error "可视化更新失败:" e ;;
           id <- requestAnimationFrame ;;
           modify (set_animationFrameId (Some id)))
  end.

(** What the platform answers during one [initAudio]: the [AudioAnalysis]
    constructor, the awaited [resumeIfSuspended()], and the first pull. *)
Record InitReplies : Type :=
  { construct : reply;
    resume : reply;
    first_pull : outcome (list Q) }.

(** [async function initAudio()] *)
Definition initAudio (r : InitReplies) : M unit :=
  try_catch
    (fid <- get animationFrameId ;;
     match truthy_id fid with
     | Some id => cancelAnimationFrame id
     | None => ret tt
     end ;;
     old <- get audioElement ;;
     match old with
     | Some e => element_pause e ;; modify (set_audioElement None)
     | None => ret tt
     end ;;
     emit NewAudio ;;
     let el := {| src := streamUrl; crossOrigin := Some "anonymous";
                  volume := 8 # 10; readyState := readyState new_Audio;
                  paused := paused new_Audio |} in
     modify (set_audioElement (Some el)) ;;
     await (construct r) ;;
     modify (set_audioAnalysis (Some {| analysed := el |})) ;;
     emit AnalysisResume ;;
     await (resume r) ;;
     element_play el ;;
     updateVisualization (first_pull r))
    (fun e =>
       console_error "音频初始化失败:" e ;;
       modify (set_isPlaying false)).

(** The [setInterval] callback of [onMount] (every 10000 ms). *)
Definition audioCheckInterval (r : InitReplies) : M unit :=
  el <- get audioElement ;;
  playing <- get isPlaying ;;
  match el with
  | Some e =>
      if (readyState e =? 0) && playing
      then
        console_log "检测到音频连接断开，尝试重新连接..." ;;
        spawn (reconnectAudio (initAudio r))
      else ret tt
  | None => ret tt
  end.

(** The body of [onMount]. *)
Definition onMount (r : InitReplies) (win host : reply) : M unit :=
  spawn (initAudio r) ;;
  spawn (setAlwaysOnTop win host true) ;;
  emit (Listen "song-info-update") ;;
  emit (SetInterval AudioCheck 10000%Z).

(** What can happen to a mounted page. *)
Inductive Event : Type :=
| FrameFires (id : nat) (pull : outcome (list Q))
| TimerFires (r : InitReplies)
| ProbeFires (r : InitReplies)
| SongInfoUpdate (payload : SongInfo)
| MediaError (e : string)
| MediaPlaying
| MediaPause
| MediaReady (state : nat)
| PlayRejected (e : string)
| ClickPin (win host : reply)
| ClickPassthrough (win host : reply)
| ClickMinimize (win : reply)
| MouseDown.

Definition handle (ev : Event) : M unit :=
  match ev with
  | FrameFires id pull => frame_fires id (updateVisualization pull)
  | TimerFires r => timer_fires (reconnectAudio (initAudio r))
  | ProbeFires r => audioCheckInterval r
  | SongInfoUpdate payload => on_song_info_update payload
  | MediaError e => on_error e
  | MediaPlaying => on_playing
  | MediaPause => on_pause
  | MediaReady state => media_ready state
  | PlayRejected e => on_play_rejected e
  | ClickPin win host => click_pin win host
  | ClickPassthrough win host => click_passthrough win host
  | ClickMinimize win => spawn (minimizeWindow win)
  | MouseDown => startDrag
  end.

Definition run (evs : list Event) (w : World) : World :=
  fold_left (fun w ev => exec (handle ev) w) evs w.

(** The page after [onMount] and any number of events. *)
Definition reachable (w : World) : Prop :=
  exists r win host evs, w = run evs (exec (onMount r win host) initial).

End Wavtools.

(** ** The Web Audio analyser of part_000 and of routes/+page.svelte *)

(** [new Uint8Array(n)] *)
Definition Uint8Array (n : nat) : list Z := repeat 0%Z n.

(** A [Uint8Array] element holds a byte; the analyser clamps what it writes. *)
Definition to_uint8 (x : Z) : Z := Z.max 0 (Z.min 255 x).

(** [analyser.getByteFrequencyData(dataArray)]: every element of the array
    receives the current magnitude of its bin; [spectrum k] is the magnitude
    the platform has for bin [k] at this call. *)
Definition getByteFrequencyData (spectrum : nat -> Z) (dataArray : list Z)
  : list Z :=
  map (fun k => to_uint8 (spectrum k)) (seq 0 (List.length dataArray)).

(** [audioContext.createAnalyser()] with the Web Audio defaults. *)
Definition createAnalyser : AnalyserNode :=
  {| fftSize := 2048; smoothingTimeConstant := 8 # 10 |}.

Definition with_fftSize (n : nat) (a : AnalyserNode) : AnalyserNode :=
  {| fftSize := n; smoothingTimeConstant := smoothingTimeConstant a |}.

Definition with_smoothing (t : Q) (a : AnalyserNode) : AnalyserNode :=
  {| fftSize := fftSize a; smoothingTimeConstant := t |}.

(** ** Revision part_000: Web Audio analyser, probe and reconnect *)

Module WebAudio.

(** [function updateVisualization()] *)
Definition updateVisualization (spectrum : nat -> Z) : M unit :=
  an <- get analyser ;;
  ctx <- get audioContext ;;
  match an, ctx with
  | Some a, Some st =>
      match st with
      | Suspended => emit ContextResume
      | _ => ret tt
      end ;;
      let dataArray :=
        getByteFrequencyData spectrum (Uint8Array (frequencyBinCount a)) in
      modify (set_bars (slice0 64 dataArray)) ;;
      id <- requestAnimationFrame ;;
      modify (set_animationFrameId (Some id))
  | _, _ => ret tt
  end.

(** The platform's answers during one [initAudio]: [audioContext.close()],
    [new AudioContext()], [createMediaElementSource], the awaited
    [audioContext.resume()], and the spectrum of the first tick. *)
Record InitReplies : Type :=
  { close : reply;
    create_context : reply;
    create_source : reply;
    resume : reply;
    first_spectrum : nat -> Z }.

(** [async function initAudio()] *)
Definition initAudio (r : InitReplies) : M unit :=
  try_catch
    (ctx <- get audioContext ;;
     match ctx with
     | Some _ =>
         emit ContextClose ;;
         await (close r) ;;
         modify (set_audioContext (Some Closed))
     | None => ret tt
     end ;;
     emit NewAudioContext ;;
     await (create_context r) ;;
     modify (set_audioContext (Some Suspended)) ;;
     modify (set_analyser
       (Some (with_smoothing (8 # 10) (with_fftSize 256 createAnalyser)))) ;;
     old <- get audioElement ;;
     match old with
     | Some e => element_pause e ;; modify (set_audioElement None)
     | None => ret tt
     end ;;
     emit NewAudio ;;
     let el := {| src := streamUrl; crossOrigin := Some "anonymous";
                  volume := 8 # 10; readyState := readyState new_Audio;
                  paused := paused new_Audio |} in
     modify (set_audioElement (Some el)) ;;
     await (create_source r) ;;
     emit ContextResume ;;
     await (resume r) ;;
     modify (set_audioContext (Some Running)) ;;
     element_play el ;;
     updateVisualization (first_spectrum r))
    (fun e =>
       console_error "音频初始化失败:" e ;;
       modify (set_isPlaying false)).

(** The [setInterval] callback of [onMount] (every 10000 ms). *)
Definition audioCheckInterval (r : InitReplies) : M unit :=
  ctx <- get audioContext ;;
  match ctx with
  | Some Suspended => emit ContextResume
  | _ => ret tt
  end ;;
  el <- get audioElement ;;
  playing <- get isPlaying ;;
  match el with
  | Some e =>
      if (readyState e =? 0) && playing
      then
        console_log "检测到音频连接断开，尝试重新连接..." ;;
        spawn (reconnectAudio (initAudio r))
      else ret tt
  | None => ret tt
  end.

(** The body of [onMount]. *)
Definition onMount (r : InitReplies) (win host : reply) : M unit :=
  spawn (initAudio r) ;;
  spawn (setAlwaysOnTop win host true) ;;
  emit (Listen "song-info-update") ;;
  emit (SetInterval AudioCheck 10000%Z).

Inductive Event : Type :=
| FrameFires (id : nat) (spectrum : nat -> Z)
| TimerFires (r : InitReplies)
| ProbeFires (r : InitReplies)
| SongInfoUpdate (payload : SongInfo)
| MediaError (e : string)
| MediaPlaying
| MediaPause
| MediaReady (state : nat)
| PlayRejected (e : string)
| ContextState_changes (st : ContextState)
| ClickPin (win host : reply)
| ClickPassthrough (win host : reply)
| ClickMinimize (win : reply)
| MouseDown.

(** The context the page holds changes state on its own (autoplay policy,
    a resume that was not awaited). *)
Definition context_state_changes (st : ContextState) : M unit :=
  ctx <- get audioContext ;;
  match ctx with
  | Some _ => modify (set_audioContext (Some st))
  | None => ret tt
  end.

Definition handle (ev : Event) : M unit :=
  match ev with
  | FrameFires id spectrum => frame_fires id (updateVisualization spectrum)
  | TimerFires r => timer_fires (reconnectAudio (initAudio r))
  | ProbeFires r => audioCheckInterval r
  | SongInfoUpdate payload => on_song_info_update payload
  | MediaError e => on_error e
  | MediaPlaying => on_playing
  | MediaPause => on_pause
  | MediaReady state => media_ready state
  | PlayRejected e => on_play_rejected e
  | ContextState_changes st => context_state_changes st
  | ClickPin win host => click_pin win host
  | ClickPassthrough win host => click_passthrough win host
  | ClickMinimize win => spawn (minimizeWindow win)
  | MouseDown => startDrag
  end.

Definition run (evs : list Event) (w : World) : World :=
  fold_left (fun w ev => exec (handle ev) w) evs w.

Definition reachable (w : World) : Prop :=
  exists r win host evs, w = run evs (exec (onMount r win host) initial).

End WebAudio.

(** ** Revision routes/+page.svelte: polling, no reconnect *)

Module Legacy.

(** [function updateVisualization()] *)
Definition updateVisualization (spectrum : nat -> Z) : M unit :=
  an <- get analyser ;;
  match an with
  | None => ret tt
  | Some a =>
      let dataArray :=
        getByteFrequencyData spectrum (Uint8Array (frequencyBinCount a)) in
      modify (set_bars (slice0 64 dataArray)) ;;
      id <- requestAnimationFrame ;;
      modify (set_animationFrameId (Some id))
  end.

Record InitReplies : Type :=
  { create_context : reply;
    create_source : reply;
    first_spectrum : nat -> Z }.

(** [function initAudio()] *)
Definition initAudio (r : InitReplies) : M unit :=
  try_catch
    (emit NewAudioContext ;;
     await (create_context r) ;;
     modify (set_audioContext (Some Suspended)) ;;
     modify (set_analyser (Some (with_fftSize 256 createAnalyser))) ;;
     emit NewAudio ;;
     let el := {| src := streamUrl; crossOrigin := Some "anonymous";
                  volume := volume new_Audio; readyState := readyState new_Audio;
                  paused := paused new_Audio |} in
     modify (set_audioElement (Some el)) ;;
     await (create_source r) ;;
     element_play el ;;
     updateVisualization (first_spectrum r))
    (fun e => console_error "音频初始化失败:" e).

(** The document served by the status endpoint, as far as the page reads
    it: [{ icestats: { source: [ { title, artist }, ... ] } }], every level
    of which may be missing. *)
Record Icestats : Type := { source : option (list SongInfo) }.
Record StatusDoc : Type := { icestats : option Icestats }.

Inductive FetchResult : Type :=
| FetchFails (e : string)
| FetchJson (data : StatusDoc).

(** [async function fetchCurrentSong()] *)
Definition fetchCurrentSong (response : FetchResult) : M unit :=
  try_catch
    (emit (Fetch "https://radio.startend.xyz/status-json.xsl") ;;
     data <- match response with
             | FetchFails e => throw e
             | FetchJson data => ret data
             end ;;
     match icestats data with
     | Some stats =>
         match source stats with
         | Some (first :: _) =>
             modify (set_currentSong
               {| title := js_or (title first) (JString "Unknown Title");
                  artist := js_or (artist first) (JString "Unknown Artist") |})
         | _ => ret tt
         end
     | None => ret tt
     end)
    (fun e => console_error "获取歌曲信息失败:" e).

(** The body of [onMount]. *)
Definition onMount (r : InitReplies) (win host : reply)
    (response : FetchResult) : M unit :=
  initAudio r ;;
  spawn (setAlwaysOnTop win host true) ;;
  spawn (fetchCurrentSong response) ;;
  emit (SetInterval FetchCurrentSong 10000%Z).

Inductive Event : Type :=
| FrameFires (id : nat) (spectrum : nat -> Z)
| PollFires (response : FetchResult)
| PlayRejected (e : string)
| ClickPin (win host : reply)
| ClickPassthrough (win host : reply)
| ClickMinimize (win : reply)
| MouseDown.

Definition handle (ev : Event) : M unit :=
  match ev with
  | FrameFires id spectrum => frame_fires id (updateVisualization spectrum)
  | PollFires response => spawn (fetchCurrentSong response)
  | PlayRejected e => console_error "播放失败:" e
  | ClickPin win host => click_pin win host
  | ClickPassthrough win host => click_passthrough win host
  | ClickMinimize win => spawn (minimizeWindow win)
  | MouseDown => startDrag
  end.

Definition run (evs : list Event) (w : World) : World :=
  fold_left (fun w ev => exec (handle ev) w) evs w.

Definition reachable (w : World) : Prop :=
  exists r win host response evs,
    w = run evs (exec (onMount r win host response) initial).

End Legacy.

(** ** The Spectral Analyzer's pull, from the specification *)

Module Analyzer.

(** Modelled from the spec: the Spectral Analyzer of section 4.1, which in
    part_001 is wavtools' [AudioAnalysis] ([getFrequencies]), a file of the
    repository that is not among the sources. The analyzer keeps the
    exponentially smoothed magnitude of every bin and the last vector it
    computed; [fresh] is the instantaneous magnitude (in dB) of audio that
    arrived since the last pull, if any. *)
Record t : Type :=
  { smoothed : list Q;
    last : list Q;
    fresh : option (list Q) }.

(** Modelled from the spec: the smoothing time-constant of the reference
    configuration, 0.8. *)
Definition smoothing : Q := 8 # 10.

(** Modelled from the spec: each output bin is an exponentially-weighted
    moving average of the instantaneous magnitude; a bin with no history
    starts at its first magnitude. *)
Fixpoint smooth (prev inst : list Q) : list Q :=
  match inst with
  | [] => []
  | x :: inst' =>
      (smoothing * hd x prev + (1 - smoothing) * x)%Q :: smooth (tl prev) inst'
  end.

(** Modelled from the spec: decibel mode, the magnitude normalized against
    floor and ceiling and mapped to [0,1]. *)
Definition normalize (floor ceiling x : Q) : Q :=
  let y := ((x - floor) / (ceiling - floor))%Q in
  if Qle_bool y 0 then 0%Q else if Qle_bool 1 y then 1%Q else y.

(** Modelled from the spec: [sample()]. It never waits; without new audio
    data it returns the last computed vector unchanged. *)
Definition sample (floor ceiling : Q) (a : t) : list Q * t :=
  match fresh a with
  | None => (last a, a)
  | Some inst =>
      let s := smooth (smoothed a) inst in
      let v := map (normalize floor ceiling) s in
      (v, {| smoothed := s; last := v; fresh := None |})
  end.

(** Modelled from the spec: new audio data arrives. *)
Definition feed (inst : list Q) (a : t) : t :=
  {| smoothed := smoothed a; last := last a; fresh := Some inst |}.

End Analyzer.

(** * What the properties speak of *)

(** ** Invariants *)

(** [preserves P m]: whatever [m] does from a world in [P], returning or
    throwing, it leaves a world in [P]. *)
Definition preserves {A : Type} (P : World -> Prop) (m : M A) : Prop :=
  forall w, P w -> P (exec m w).

(** [m] returns normally from every world. *)
Definition never_throws {A : Type} (m : M A) : Prop :=
  forall w, exists a w', m w = (Ok a, w').

(** The vector published by part_001 has 64 entries. *)
Definition vector64 (w : World) : Prop := List.length (frequencyValues w) = 64.

(** The bars of part_000 and routes/+page.svelte have 64 entries, and the
    analyser, once created, has the FFT size the page gives it. *)
Definition bars64 (w : World) : Prop :=
  List.length (bars w) = 64 /\
  forall a, analyser w = Some a -> fftSize a = 256.

(** A tick loop is a pending animation frame: its callback runs one tick
    and requests the next frame. At most one is pending, and it is the one
    [animationFrameId] tracks. *)
Definition one_loop (w : World) : Prop :=
  nextFrame w <> 0 /\
  (frames w = [] \/
   exists f, frames w = [f] /\ animationFrameId w = Some f /\ f <> 0).

(** No frame pending. Everything in [initAudio] between the cancellation
    and the first tick keeps the page idle. *)
Definition idle (w : World) : Prop := nextFrame w <> 0 /\ frames w = [].

(** Both stored metadata fields are strings. *)
Definition song_is_strings (w : World) : Prop :=
  exists t a, currentSong w = {| title := JString t; artist := JString a |}.

(** ** Reading the trace and the console *)

Definition is_reconnect_entry (e : Effect) : bool :=
  match e with
  | Entered ReconnectAudio => true
  | _ => false
  end.

(** How many times control has entered [reconnectAudio]. *)
Definition reconnects (w : World) : nat :=
  List.length (filter is_reconnect_entry (trace w)).

Definition reconnects_are (n : nat) (w : World) : Prop := reconnects w = n.

Definition timers_are (t : list (Callback * Z)) (w : World) : Prop :=
  timers w = t.

Definition is_cancel (e : Effect) : bool :=
  match e with
  | CancelFrame _ => true
  | _ => false
  end.

Definition is_retry (e : Effect) : bool :=
  match e with
  | SetTimeout ReconnectAudio _ => true
  | _ => false
  end.

(** Whether the console received anything between two worlds. *)
Definition logged_since (w w' : World) : bool :=
  List.length (console w) <? List.length (console w').

(** The [try] block of [reconnectAudio]. *)
Definition reconnect_attempt (initAudio : M unit) : M unit :=
  el <- get audioElement ;;
  match el with
  | Some e => element_pause e
  | None => ret tt
  end ;;
  initAudio.

(** The probe's detection: an element is held, its [readyState] is 0
    (HAVE_NOTHING: no data has arrived), and [isPlaying] is set. *)
Definition probe_detects (w : World) : bool :=
  match audioElement w with
  | Some e => (readyState e =? 0) && isPlaying w
  | None => false
  end.

(** ** Scenarios *)

Definition silence : nat -> Z := fun _ => 0%Z.

(** Every platform call of [initAudio] succeeds. *)
Definition webaudio_fine : WebAudio.InitReplies :=
  {| WebAudio.close := Fine; WebAudio.create_context := Fine;
     WebAudio.create_source := Fine; WebAudio.resume := Fine;
     WebAudio.first_spectrum := silence |}.

(** part_000 mounted, the stream played, then the element fell back to
    [readyState] 0 while [isPlaying] is still set. *)
Definition webaudio_stalled : World :=
  WebAudio.run
    [WebAudio.MediaReady 4; WebAudio.MediaPlaying; WebAudio.MediaReady 0]
    (exec (WebAudio.onMount webaudio_fine Fine Fine) initial).

Definition wavtools_fine : Wavtools.InitReplies :=
  {| Wavtools.construct := Fine; Wavtools.resume := Fine;
     Wavtools.first_pull := Ok [1 # 2; 1 # 4; 1 # 8] |}.

(** The same for part_001. *)
Definition wavtools_stalled : World :=
  Wavtools.run
    [Wavtools.MediaReady 4; Wavtools.MediaPlaying; Wavtools.MediaReady 0]
    (exec (Wavtools.onMount wavtools_fine Fine Fine) initial).

(** A reconnect during which the analyser cannot be constructed. *)
Definition wavtools_no_analyser : Wavtools.InitReplies :=
  {| Wavtools.construct := Fails "NotSupportedError"; Wavtools.resume := Fine;
     Wavtools.first_pull := Ok [] |}.

(** A reconnect during which no audio context can be created. *)
Definition webaudio_no_context : WebAudio.InitReplies :=
  {| WebAudio.close := Fine;
     WebAudio.create_context := Fails "NotSupportedError";
     WebAudio.create_source := Fine; WebAudio.resume := Fine;
     WebAudio.first_spectrum := silence |}.

(** An analyzer that has computed a vector and has new audio waiting. *)
Definition analyzer_with_data : Analyzer.t :=
  {| Analyzer.smoothed := [-60; -50]%Q;
     Analyzer.last := [4 # 7; 5 # 7]%Q;
     Analyzer.fresh := Some [-40; -90]%Q |}.

(** A page that holds an artist from an earlier update. *)
Definition wavtools_with_artist : World :=
  Wavtools.run
    [Wavtools.SongInfoUpdate
       {| title := JString "First"; artist := JString "Old Artist" |}]
    wavtools_stalled.

(** * Properties *)

(** ** Reasoning about handlers *)

#[local] Arguments Nat.leb : simpl never.
#[local] Arguments slice0 : simpl never.
#[local] Arguments Float32Array : simpl never.
#[local] Arguments String.append : simpl never.

Lemma exec_bind {A B : Type} (m : M A) (k : A -> M B) (w : World) :
  exec (bind m k) w =
  match m w with
  | (Ok a, w') => exec (k a) w'
  | (Throw _, w') => w'
  end.
Proof.
  unfold exec, bind. destruct (m w) as [[a | e] w']; reflexivity.
Qed.

Lemma length_slice0_64 {A : Type} (values : list A) :
  64 <= List.length values -> List.length (slice0 64 values) = 64.
Proof.
  intros H. unfold slice0. rewrite length_firstn. lia.
Qed.

Lemma skipn_repeat {A : Type} (x : A) (k n : nat) :
  skipn k (repeat x n) = repeat x (n - k).
Proof.
  revert n. induction k as [| k IH]; intros n.
  - rewrite Nat.sub_0_r. reflexivity.
  - destruct n as [| n]; simpl; [reflexivity | apply IH].
Qed.

(** What [updateVisualization] of part_001 publishes, case by case. *)
Lemma wavtools_tick_values (values : list Q) (w : World) (a : AudioAnalysis) :
  audioAnalysis w = Some a ->
  frequencyValues (exec (Wavtools.updateVisualization (Ok values)) w) =
  if 64 <=? List.length values
  then slice0 64 values
  else values ++ repeat 0%Q (64 - List.length values).
Proof.
  intros Ha. unfold Wavtools.updateVisualization, exec, bind, get.
  rewrite Ha. unfold try_catch, bind, emit, modify, platform.
  destruct (64 <=? List.length values) eqn:E.
  - reflexivity.
  - apply Nat.leb_gt in E. unfold typed_set.
    assert (L : (List.length values <=? List.length (Float32Array 64)) = true).
    { apply Nat.leb_le. unfold Float32Array. rewrite repeat_length. lia. }
    rewrite L. unfold ret. simpl.
    unfold Float32Array. rewrite skipn_repeat. reflexivity.
Qed.

(** ** Invariants of handlers *)

Section Preservation.

Variable P : World -> Prop.

Lemma preserves_ret {A : Type} (a : A) : preserves P (ret a).
Proof. intros w H. exact H. Qed.

Lemma preserves_throw {A : Type} (e : string) : preserves P (@throw A e).
Proof. intros w H. exact H. Qed.

Lemma preserves_get {A : Type} (f : World -> A) : preserves P (get f).
Proof. intros w H. exact H. Qed.

Lemma preserves_platform {A : Type} (o : outcome A) : preserves P (platform o).
Proof. intros w H. exact H. Qed.

Lemma preserves_await (r : reply) : preserves P (await r).
Proof. intros w H. destruct r; exact H. Qed.

Lemma preserves_bind {A B : Type} (m : M A) (k : A -> M B) :
  preserves P m -> (forall a, preserves P (k a)) -> preserves P (bind m k).
Proof.
  intros Hm Hk w H. rewrite exec_bind. specialize (Hm w H). unfold exec in Hm.
  destruct (m w) as [[a | e] w']; simpl in Hm; [apply Hk; exact Hm | exact Hm].
Qed.

Lemma preserves_try_catch (body : M unit) (handler : string -> M unit) :
  preserves P body -> (forall e, preserves P (handler e)) ->
  preserves P (try_catch body handler).
Proof.
  intros Hb Hh w H. specialize (Hb w H). unfold exec, try_catch in *.
  destruct (body w) as [[a | e] w']; simpl in *; [exact Hb | apply Hh; exact Hb].
Qed.

Lemma preserves_spawn (m : M unit) : preserves P m -> preserves P (spawn m).
Proof. intros Hm w H. apply Hm. exact H. Qed.

Lemma preserves_modify (f : World -> World) :
  (forall w, P w -> P (f w)) -> preserves P (modify f).
Proof. intros Hf w H. apply Hf. exact H. Qed.

Lemma preserves_requestAnimationFrame :
  (forall w, P w ->
     P (set_trace (trace w ++ [RequestFrame (nextFrame w)])
         (set_nextFrame (S (nextFrame w))
            (set_frames (frames w ++ [nextFrame w]) w)))) ->
  preserves P requestAnimationFrame.
Proof. intros Hf w H. apply Hf. exact H. Qed.

End Preservation.

(** One step through the structure of a handler. *)
Ltac preserve_step :=
  lazymatch goal with
  | |- preserves _ (bind _ _) => apply preserves_bind; [| intros ?]
  | |- preserves _ (try_catch _ _) => apply preserves_try_catch; [| intros ?]
  | |- preserves _ (ret _) => apply preserves_ret
  | |- preserves _ (throw _) => apply preserves_throw
  | |- preserves _ (get _) => apply preserves_get
  | |- preserves _ (platform _) => apply preserves_platform
  | |- preserves _ (await _) => apply preserves_await
  | |- preserves _ (spawn _) => apply preserves_spawn
  | |- preserves _ (modify _) => apply preserves_modify
  | |- preserves _ requestAnimationFrame =>
      apply preserves_requestAnimationFrame
  | |- preserves _ (match ?x with _ => _ end) => destruct x
  | |- preserves _ (if ?x then _ else _) => destruct x
  end.

(** Opens the page's small helpers down to [modify]. *)
Ltac open_helpers :=
  unfold element_pause, element_play, emit, console_error, console_log,
    setTimeout, cancelAnimationFrame, on_error, on_playing, on_pause,
    on_play_rejected, on_song_info_update, setAlwaysOnTop,
    setMousePassthrough, changeThemeColor, click_pin, click_passthrough,
    startDrag, minimizeWindow, media_ready, frame_fires, timer_fires,
    reconnectAudio.

(** Walks a handler; [leaf] closes the calls it knows, what is left are
    the single assignments. *)
Ltac preserve_by leaf :=
  repeat first [ solve [leaf] | preserve_step | progress open_helpers ].

(** *** Invariants of the mounted page *)

Lemma wavtools_reachable_ind (P : World -> Prop) :
  P initial ->
  (forall r win host, preserves P (Wavtools.onMount r win host)) ->
  (forall ev, preserves P (Wavtools.handle ev)) ->
  forall w, Wavtools.reachable w -> P w.
Proof.
  intros H0 Hm Hev w (r & win & host & evs & ->).
  specialize (Hm r win host initial H0). revert Hm.
  generalize (exec (Wavtools.onMount r win host) initial).
  unfold Wavtools.run. induction evs as [| ev evs IH]; intros w0 Hw0; simpl.
  - exact Hw0.
  - apply IH, Hev, Hw0.
Qed.

Lemma webaudio_reachable_ind (P : World -> Prop) :
  P initial ->
  (forall r win host, preserves P (WebAudio.onMount r win host)) ->
  (forall ev, preserves P (WebAudio.handle ev)) ->
  forall w, WebAudio.reachable w -> P w.
Proof.
  intros H0 Hm Hev w (r & win & host & evs & ->).
  specialize (Hm r win host initial H0). revert Hm.
  generalize (exec (WebAudio.onMount r win host) initial).
  unfold WebAudio.run. induction evs as [| ev evs IH]; intros w0 Hw0; simpl.
  - exact Hw0.
  - apply IH, Hev, Hw0.
Qed.

Lemma legacy_reachable_ind (P : World -> Prop) :
  P initial ->
  (forall r win host response,
     preserves P (Legacy.onMount r win host response)) ->
  (forall ev, preserves P (Legacy.handle ev)) ->
  forall w, Legacy.reachable w -> P w.
Proof.
  intros H0 Hm Hev w (r & win & host & response & evs & ->).
  specialize (Hm r win host response initial H0). revert Hm.
  generalize (exec (Legacy.onMount r win host response) initial).
  unfold Legacy.run. induction evs as [| ev evs IH]; intros w0 Hw0; simpl.
  - exact Hw0.
  - apply IH, Hev, Hw0.
Qed.

(** *** The published vector keeps its 64 entries (part_001) *)

Lemma wavtools_tick_vector64 (pull : outcome (list Q)) :
  preserves vector64 (Wavtools.updateVisualization pull).
Proof.
  intros w H. unfold vector64 in *.
  destruct (audioAnalysis w) as [a |] eqn:Ha.
  - destruct pull as [values | e].
    + rewrite (wavtools_tick_values values w a Ha).
      destruct (64 <=? List.length values) eqn:E.
      * apply length_slice0_64. apply Nat.leb_le. exact E.
      * apply Nat.leb_gt in E. rewrite length_app, repeat_length. lia.
    + unfold Wavtools.updateVisualization, exec, bind, get. rewrite Ha.
      simpl. exact H.
  - unfold Wavtools.updateVisualization, exec, bind, get. rewrite Ha.
    simpl. exact H.
Qed.

Ltac frame_field := intros ? H; exact H.

Lemma wavtools_initAudio_vector64 (r : Wavtools.InitReplies) :
  preserves vector64 (Wavtools.initAudio r).
Proof.
  unfold Wavtools.initAudio.
  preserve_by ltac:(apply wavtools_tick_vector64); frame_field.
Qed.

Lemma wavtools_tick_keeps_analysis (a : AudioAnalysis) (pull : outcome (list Q)) :
  preserves (fun w => audioAnalysis w = Some a)
    (Wavtools.updateVisualization pull).
Proof.
  unfold Wavtools.updateVisualization, typed_set.
  preserve_by ltac:(fail); frame_field.
Qed.

Lemma wavtools_tick_returns (values : list Q) (w : World) :
  fst (Wavtools.updateVisualization (Ok values) w) = Ok tt.
Proof.
  unfold Wavtools.updateVisualization, bind, get.
  destruct (audioAnalysis w); [| reflexivity].
  unfold try_catch, bind, emit, modify, platform, typed_set.
  destruct (64 <=? List.length values); [reflexivity |].
  match goal with
  | |- context [if ?a <=? ?b then _ else _] => destruct (a <=? b)
  end; reflexivity.
Qed.

Lemma wavtools_tick_publishes_64 (values : list Q) (w : World)
    (a : AudioAnalysis) :
  audioAnalysis w = Some a ->
  List.length (frequencyValues (exec (Wavtools.updateVisualization (Ok values)) w))
  = 64.
Proof.
  intros Ha. rewrite (wavtools_tick_values values w a Ha).
  destruct (64 <=? List.length values) eqn:E.
  - apply length_slice0_64, Nat.leb_le, E.
  - apply Nat.leb_gt in E. rewrite length_app, repeat_length. lia.
Qed.

Lemma wavtools_handle_vector64 (ev : Wavtools.Event) :
  preserves vector64 (Wavtools.handle ev).
Proof.
  destruct ev; unfold Wavtools.handle, Wavtools.audioCheckInterval.
  all: preserve_by ltac:(first [ apply wavtools_tick_vector64
                               | apply wavtools_initAudio_vector64 ]).
  all: frame_field.
Qed.

Lemma wavtools_reachable_vector64 (w : World) :
  Wavtools.reachable w -> vector64 w.
Proof.
  apply wavtools_reachable_ind.
  - reflexivity.
  - intros r win host. unfold Wavtools.onMount.
    preserve_by ltac:(apply wavtools_initAudio_vector64); frame_field.
  - apply wavtools_handle_vector64.
Qed.

(** *** The bars keep their 64 entries (part_000 and routes/+page.svelte)

    Here the truncation alone gives 64 entries, because the page fixes the
    analyser's FFT size at 256, that is 128 bins. *)

Lemma length_getByteFrequencyData (spectrum : nat -> Z) (n : nat) :
  List.length (getByteFrequencyData spectrum (Uint8Array n)) = n.
Proof.
  unfold getByteFrequencyData, Uint8Array.
  rewrite length_map, length_seq, repeat_length. reflexivity.
Qed.

Lemma length_bars_of_analyser (spectrum : nat -> Z) (a : AnalyserNode) :
  fftSize a = 256 ->
  List.length
    (slice0 64 (getByteFrequencyData spectrum (Uint8Array (frequencyBinCount a))))
  = 64.
Proof.
  intros H. unfold slice0, frequencyBinCount.
  rewrite length_firstn, length_getByteFrequencyData, H. reflexivity.
Qed.

Lemma webaudio_tick_bars64 (spectrum : nat -> Z) :
  preserves bars64 (WebAudio.updateVisualization spectrum).
Proof.
  intros w H. assert (Hfft := proj2 H).
  unfold WebAudio.updateVisualization, exec, bind, get.
  destruct (analyser w) as [a |] eqn:Ha; [| exact H].
  destruct (audioContext w) as [st |]; [| exact H].
  specialize (Hfft a eq_refl). split.
  - destruct st; simpl; apply length_bars_of_analyser, Hfft.
  - destruct st; simpl; rewrite Ha; intros ? [= <-]; exact Hfft.
Qed.

Lemma legacy_tick_bars64 (spectrum : nat -> Z) :
  preserves bars64 (Legacy.updateVisualization spectrum).
Proof.
  intros w H. assert (Hfft := proj2 H).
  unfold Legacy.updateVisualization, exec, bind, get.
  destruct (analyser w) as [a |] eqn:Ha; [| exact H].
  specialize (Hfft a eq_refl). split; simpl.
  - apply length_bars_of_analyser, Hfft.
  - rewrite Ha; intros ? [= <-]; exact Hfft.
Qed.

(** Assigning the analyser [initAudio] configures keeps the invariant. *)
Ltac configured_analyser :=
  intros ? [Hlen _]; split;
  [ exact Hlen | simpl; intros ? Heq; injection Heq as <-; reflexivity ].

Lemma webaudio_initAudio_bars64 (r : WebAudio.InitReplies) :
  preserves bars64 (WebAudio.initAudio r).
Proof.
  unfold WebAudio.initAudio.
  preserve_by ltac:(apply webaudio_tick_bars64);
    first [ frame_field | configured_analyser ].
Qed.

Lemma legacy_initAudio_bars64 (r : Legacy.InitReplies) :
  preserves bars64 (Legacy.initAudio r).
Proof.
  unfold Legacy.initAudio.
  preserve_by ltac:(apply legacy_tick_bars64);
    first [ frame_field | configured_analyser ].
Qed.

Lemma webaudio_handle_bars64 (ev : WebAudio.Event) :
  preserves bars64 (WebAudio.handle ev).
Proof.
  destruct ev; unfold WebAudio.handle, WebAudio.audioCheckInterval,
    WebAudio.context_state_changes.
  all: preserve_by ltac:(first [ apply webaudio_tick_bars64
                               | apply webaudio_initAudio_bars64 ]).
  all: frame_field.
Qed.

Lemma legacy_handle_bars64 (ev : Legacy.Event) :
  preserves bars64 (Legacy.handle ev).
Proof.
  destruct ev; unfold Legacy.handle, Legacy.fetchCurrentSong.
  all: preserve_by ltac:(apply legacy_tick_bars64).
  all: frame_field.
Qed.

Lemma initial_bars64 : bars64 initial.
Proof. split; [reflexivity | intros a H; discriminate H]. Qed.

Lemma webaudio_reachable_bars64 (w : World) :
  WebAudio.reachable w -> bars64 w.
Proof.
  apply webaudio_reachable_ind.
  - apply initial_bars64.
  - intros r win host. unfold WebAudio.onMount.
    preserve_by ltac:(apply webaudio_initAudio_bars64); frame_field.
  - apply webaudio_handle_bars64.
Qed.

Lemma legacy_reachable_bars64 (w : World) :
  Legacy.reachable w -> bars64 w.
Proof.
  apply legacy_reachable_ind.
  - apply initial_bars64.
  - intros r win host response.
    unfold Legacy.onMount, Legacy.fetchCurrentSong.
    preserve_by ltac:(apply legacy_initAudio_bars64); frame_field.
  - apply legacy_handle_bars64.
Qed.

(** *** At most one tick loop (part_001)

    A tick loop is a pending animation frame: its callback runs one tick and
    requests the next frame. The page tracks the loop's pending frame in
    [animationFrameId]. *)

Lemma one_loop_at_most_one (w : World) : one_loop w -> List.length (frames w) <= 1.
Proof.
  intros [_ [-> | (f & -> & _)]]; simpl; lia.
Qed.

(** A tick entered with no frame pending leaves at most its own. *)
Lemma wavtools_tick_from_idle (pull : outcome (list Q)) (w : World) :
  nextFrame w <> 0 -> frames w = [] ->
  one_loop (exec (Wavtools.updateVisualization pull) w).
Proof.
  intros Hn Hf.
  assert (Hnew : forall w', nextFrame w' = S (nextFrame w) ->
            frames w' = frames w ++ [nextFrame w] ->
            animationFrameId w' = Some (nextFrame w) -> one_loop w').
  { intros w' H1 H2 H3. split; [lia |]. right. exists (nextFrame w).
    rewrite H2, Hf. auto. }
  unfold Wavtools.updateVisualization, exec, bind, get, try_catch, bind.
  destruct (audioAnalysis w) as [a |].
  - unfold emit, platform, modify, typed_set, console_error, modify,
      requestAnimationFrame, ret, throw.
    destruct pull as [values | e]; simpl.
    + destruct (64 <=? List.length values); simpl.
      * apply Hnew; reflexivity.
      * match goal with
        | |- context [if ?a <=? ?b then _ else _] => destruct (a <=? b)
        end; simpl; apply Hnew; reflexivity.
    + apply Hnew; reflexivity.
  - simpl. split; [exact Hn | left; exact Hf].
Qed.

(** What is left of the pending frames once the tracked one is cancelled. *)
Lemma cancel_tracked_frame (w : World) :
  one_loop w ->
  match truthy_id (animationFrameId w) with
  | Some id => filter (fun i => negb (Nat.eqb i id)) (frames w)
  | None => frames w
  end = [].
Proof.
  intros [_ [Hf | (f & Hf & Hid & Hnz)]].
  - rewrite Hf. destruct (truthy_id (animationFrameId w)); reflexivity.
  - rewrite Hf, Hid. destruct f as [| f]; [contradiction |].
    simpl. rewrite Nat.eqb_refl. reflexivity.
Qed.

Lemma idle_one_loop (w : World) : idle w -> one_loop w.
Proof. intros [Hn Hf]. split; [exact Hn | left; exact Hf]. Qed.

Lemma wavtools_initAudio_one_loop (r : Wavtools.InitReplies) :
  preserves one_loop (Wavtools.initAudio r).
Proof.
  intros w H. pose proof (cancel_tracked_frame w H) as Hc.
  destruct H as [Hn _].
  unfold Wavtools.initAudio, exec, try_catch, bind, get.
  unfold cancelAnimationFrame, element_pause, element_play, emit,
    console_error, modify, await, bind, ret, throw.
  destruct (truthy_id (animationFrameId w)) as [id |]; simpl;
    destruct (audioElement w) as [el |]; simpl;
    destruct (Wavtools.construct r); simpl;
    try (apply idle_one_loop; split; assumption);
    destruct (Wavtools.resume r); simpl;
    try (apply idle_one_loop; split; assumption).
  all: match goal with
       | |- one_loop (snd (match ?m ?w0 with _ => _ end)) =>
           pose proof (wavtools_tick_from_idle (Wavtools.first_pull r) w0 Hn Hc)
             as Ht;
           unfold exec in Ht; destruct (m w0) as [[[] | e] w1]; simpl in *
       end.
  all: try exact Ht.
  all: destruct Ht as [Hn1 Hf1]; split; [exact Hn1 | exact Hf1].
Qed.

Lemma wavtools_frame_fires_one_loop (id : nat) (pull : outcome (list Q)) :
  preserves one_loop (frame_fires id (Wavtools.updateVisualization pull)).
Proof.
  intros w H. unfold frame_fires. rewrite exec_bind. unfold get.
  destruct (existsb (Nat.eqb id) (frames w)) eqn:E; [| exact H].
  rewrite exec_bind. unfold modify.
  apply wavtools_tick_from_idle; simpl.
  - exact (proj1 H).
  - destruct H as [_ [Hf | (f & Hf & _)]]; rewrite Hf in *; simpl in *.
    + discriminate E.
    + rewrite orb_false_r in E. apply Nat.eqb_eq in E. subst f.
      rewrite Nat.eqb_refl. reflexivity.
Qed.

Lemma one_loop_frame (w w' : World) :
  nextFrame w' = nextFrame w -> frames w' = frames w ->
  animationFrameId w' = animationFrameId w -> one_loop w -> one_loop w'.
Proof.
  unfold one_loop. intros -> -> ->. exact (fun H => H).
Qed.

(** Assignments that touch neither the frames nor [animationFrameId]. *)
Ltac frame_one_loop :=
  intros ? H; refine (one_loop_frame _ _ _ _ _ H); reflexivity.

Lemma wavtools_handle_one_loop (ev : Wavtools.Event) :
  preserves one_loop (Wavtools.handle ev).
Proof.
  destruct ev; unfold Wavtools.handle, Wavtools.audioCheckInterval.
  all: preserve_by ltac:(first [ apply wavtools_frame_fires_one_loop
                               | apply wavtools_initAudio_one_loop ]).
  all: frame_one_loop.
Qed.

Lemma wavtools_reachable_one_loop (w : World) :
  Wavtools.reachable w -> one_loop w.
Proof.
  apply wavtools_reachable_ind.
  - split; [discriminate | left; reflexivity].
  - intros r win host. unfold Wavtools.onMount.
    preserve_by ltac:(apply wavtools_initAudio_one_loop); frame_one_loop.
  - apply wavtools_handle_one_loop.
Qed.

(** In part_001 no reachable page has two frames pending: the frame
    cancelled at the head of [initAudio] is the only one there was. *)
Lemma wavtools_never_two_loops (w : World) :
  Wavtools.reachable w -> List.length (frames w) <= 1.
Proof.
  intros H. apply one_loop_at_most_one, wavtools_reachable_one_loop, H.
Qed.

(** *** part_000: a successful [initAudio] keeps every pending frame

    Whatever frames are pending when [initAudio] starts are still pending
    when it ends, next to the one its first tick requested; nothing in it
    cancels a frame. *)

Lemma webaudio_initAudio_keeps_frames (w : World) (first : nat -> Z) :
  let w' :=
    exec (WebAudio.initAudio
            {| WebAudio.close := Fine; WebAudio.create_context := Fine;
               WebAudio.create_source := Fine; WebAudio.resume := Fine;
               WebAudio.first_spectrum := first |}) w in
  frames w' = frames w ++ [nextFrame w] /\
  filter is_cancel (trace w') = filter is_cancel (trace w).
Proof.
  cbv zeta.
  unfold WebAudio.initAudio, WebAudio.updateVisualization, exec, try_catch,
    bind, get, element_pause, element_play, emit, console_error, modify,
    await, bind, ret, requestAnimationFrame, modify.
  simpl.
  destruct (audioContext w) as [st |]; simpl;
    destruct (audioElement w) as [el |]; simpl;
    (split; [reflexivity |]);
    rewrite ?filter_app; simpl; rewrite ?app_nil_r; reflexivity.
Qed.

(** *** Counting reconnect attempts and retries *)

Lemma reconnects_emit (e : Effect) (w : World) :
  reconnects (set_trace (trace w ++ [e]) w) =
  reconnects w + (if is_reconnect_entry e then 1 else 0).
Proof.
  unfold reconnects. simpl. rewrite filter_app, length_app. simpl.
  destruct (is_reconnect_entry e); reflexivity.
Qed.

Lemma reconnects_frame (n : nat) (w w' : World) (e : Effect) :
  trace w' = trace w ++ [e] ->
  is_reconnect_entry e = false ->
  reconnects_are n w -> reconnects_are n w'.
Proof.
  unfold reconnects_are, reconnects. intros -> He <-.
  rewrite filter_app, length_app. simpl. rewrite He. simpl. lia.
Qed.

(** An assignment that leaves the trace alone, or appends a call other
    than an entry into [reconnectAudio]. *)
Ltac frame_reconnects :=
  intros ? H;
  first [ exact H
        | refine (reconnects_frame _ _ _ _ _ _ H); reflexivity
        | simpl;
          refine (reconnects_frame _ _ _ _ _ _
                    (reconnects_frame _ _ _ _ _ _ H)); reflexivity ].

Lemma wavtools_tick_reconnects (n : nat) (pull : outcome (list Q)) :
  preserves (reconnects_are n) (Wavtools.updateVisualization pull).
Proof.
  unfold Wavtools.updateVisualization, typed_set.
  preserve_by ltac:(fail); frame_reconnects.
Qed.

Lemma wavtools_initAudio_reconnects (n : nat) (r : Wavtools.InitReplies) :
  preserves (reconnects_are n) (Wavtools.initAudio r).
Proof.
  unfold Wavtools.initAudio.
  preserve_by ltac:(apply wavtools_tick_reconnects); frame_reconnects.
Qed.

Lemma webaudio_tick_reconnects (n : nat) (spectrum : nat -> Z) :
  preserves (reconnects_are n) (WebAudio.updateVisualization spectrum).
Proof.
  unfold WebAudio.updateVisualization.
  preserve_by ltac:(fail); frame_reconnects.
Qed.

Lemma webaudio_initAudio_reconnects (n : nat) (r : WebAudio.InitReplies) :
  preserves (reconnects_are n) (WebAudio.initAudio r).
Proof.
  unfold WebAudio.initAudio.
  preserve_by ltac:(apply webaudio_tick_reconnects); frame_reconnects.
Qed.

(** [reconnectAudio] counts once, whatever its [initAudio] does. *)
Lemma reconnectAudio_counts_once (init : M unit) (w : World) :
  (forall n, preserves (reconnects_are n) init) ->
  reconnects (exec (reconnectAudio init) w) = S (reconnects w).
Proof.
  intros Hinit. unfold reconnectAudio. rewrite exec_bind.
  unfold emit at 1. unfold modify at 1.
  assert (Hp : preserves (reconnects_are (S (reconnects w)))
            (try_catch
               (el <- get audioElement ;;
                match el with
                | Some e => element_pause e
                | None => ret tt
                end ;; init)
               (fun e =>
                  console_error "重新连接音频失败:" e ;;
                  setTimeout ReconnectAudio 5000%Z))).
  { preserve_by ltac:(apply Hinit); frame_reconnects. }
  apply Hp. unfold reconnects_are. rewrite reconnects_emit. simpl. lia.
Qed.

(** *** Handlers that never throw *)

Lemma never_throws_bind {A B : Type} (m : M A) (k : A -> M B) :
  never_throws m -> (forall a, never_throws (k a)) -> never_throws (bind m k).
Proof.
  intros Hm Hk w. unfold bind. destruct (Hm w) as (a & w' & ->). apply Hk.
Qed.

Lemma never_throws_get {A : Type} (f : World -> A) : never_throws (get f).
Proof. intros w. exists (f w), w. reflexivity. Qed.

Lemma never_throws_modify (f : World -> World) : never_throws (modify f).
Proof. intros w. exists tt, (f w). reflexivity. Qed.

Lemma never_throws_ret {A : Type} (a : A) : never_throws (ret a).
Proof. intros w. exists a, w. reflexivity. Qed.

Lemma try_catch_never_throws (body : M unit) (handler : string -> M unit) :
  (forall e, never_throws (handler e)) -> never_throws (try_catch body handler).
Proof.
  intros Hh w. unfold try_catch.
  destruct (body w) as [[a | e] w'].
  - exists a, w'. reflexivity.
  - apply Hh.
Qed.

(** A [try] block that never throws never enters its [catch]. *)
Lemma try_catch_skips (body : M unit) (handler : string -> M unit) (w : World) :
  never_throws body -> try_catch body handler w = body w.
Proof.
  intros Hb. unfold try_catch. destruct (Hb w) as (a & w' & ->). reflexivity.
Qed.

Ltac never_throws_step :=
  lazymatch goal with
  | |- never_throws (bind _ _) => apply never_throws_bind; [| intros ?]
  | |- never_throws (get _) => apply never_throws_get
  | |- never_throws (modify _) => apply never_throws_modify
  | |- never_throws (ret _) => apply never_throws_ret
  | |- never_throws (match ?x with _ => _ end) => destruct x
  end.

(** [initAudio] catches whatever goes wrong inside it: its promise never
    rejects. *)
Lemma wavtools_initAudio_never_throws (r : Wavtools.InitReplies) :
  never_throws (Wavtools.initAudio r).
Proof.
  apply try_catch_never_throws. intros e.
  unfold console_error. repeat never_throws_step.
Qed.

Lemma webaudio_initAudio_never_throws (r : WebAudio.InitReplies) :
  never_throws (WebAudio.initAudio r).
Proof.
  apply try_catch_never_throws. intros e.
  unfold console_error. repeat never_throws_step.
Qed.

Lemma reconnect_attempt_never_throws (init : M unit) :
  never_throws init -> never_throws (reconnect_attempt init).
Proof.
  intros Hinit. unfold reconnect_attempt, element_pause, emit.
  repeat first [ exact Hinit | never_throws_step ].
Qed.

(** With an [initAudio] that never throws, the [try] block of
    [reconnectAudio] always completes: its [catch], and the retry in it, is
    never entered. *)
Lemma reconnectAudio_skips_catch (init : M unit) (w : World) :
  never_throws init ->
  reconnectAudio init w =
  (emit (Entered ReconnectAudio) ;; reconnect_attempt init) w.
Proof.
  intros Hinit. unfold reconnectAudio, bind at 1.
  destruct (emit (Entered ReconnectAudio) w) as [[[] | e] w1] eqn:E.
  - fold (reconnect_attempt init). rewrite try_catch_skips.
    + unfold bind at 1. rewrite E. reflexivity.
    + apply reconnect_attempt_never_throws, Hinit.
  - discriminate E.
Qed.

Lemma wavtools_tick_timers (t : list (Callback * Z)) (pull : outcome (list Q)) :
  preserves (timers_are t) (Wavtools.updateVisualization pull).
Proof.
  unfold Wavtools.updateVisualization, typed_set.
  preserve_by ltac:(fail); frame_field.
Qed.

Lemma wavtools_initAudio_timers (t : list (Callback * Z))
    (r : Wavtools.InitReplies) :
  preserves (timers_are t) (Wavtools.initAudio r).
Proof.
  unfold Wavtools.initAudio.
  preserve_by ltac:(apply wavtools_tick_timers); frame_field.
Qed.

Lemma webaudio_tick_timers (t : list (Callback * Z)) (spectrum : nat -> Z) :
  preserves (timers_are t) (WebAudio.updateVisualization spectrum).
Proof.
  unfold WebAudio.updateVisualization.
  preserve_by ltac:(fail); frame_field.
Qed.

Lemma webaudio_initAudio_timers (t : list (Callback * Z))
    (r : WebAudio.InitReplies) :
  preserves (timers_are t) (WebAudio.initAudio r).
Proof.
  unfold WebAudio.initAudio.
  preserve_by ltac:(apply webaudio_tick_timers); frame_field.
Qed.

(** No retry is ever scheduled: [reconnectAudio] leaves the timers as they
    were and returns normally. *)
Lemma reconnectAudio_schedules_nothing (init : M unit) (w : World) :
  never_throws init ->
  (forall t, preserves (timers_are t) init) ->
  fst (reconnectAudio init w) = Ok tt /\
  timers (exec (reconnectAudio init) w) = timers w.
Proof.
  intros Hn Ht. unfold exec. rewrite (reconnectAudio_skips_catch init w Hn).
  split.
  - assert (H : never_throws
                  (emit (Entered ReconnectAudio) ;; reconnect_attempt init)).
    { unfold emit. never_throws_step; [never_throws_step |].
      apply reconnect_attempt_never_throws, Hn. }
    destruct (H w) as ([] & w' & ->). reflexivity.
  - assert (Hp : preserves (timers_are (timers w))
              (emit (Entered ReconnectAudio) ;; reconnect_attempt init)).
    { unfold reconnect_attempt. preserve_by ltac:(apply Ht); frame_field. }
    apply Hp. reflexivity.
Qed.

(** *** The liveness probe *)

Lemma exec_spawn (m : M unit) (w : World) : exec (spawn m) w = exec m w.
Proof. reflexivity. Qed.

Lemma wavtools_probe_count (r : Wavtools.InitReplies) (w : World) :
  reconnects (exec (Wavtools.audioCheckInterval r) w) =
  if probe_detects w then S (reconnects w) else reconnects w.
Proof.
  unfold Wavtools.audioCheckInterval, probe_detects.
  rewrite exec_bind. unfold get at 1. rewrite exec_bind. unfold get at 1.
  destruct (audioElement w) as [e |]; [| reflexivity].
  destruct ((readyState e =? 0) && isPlaying w); [| reflexivity].
  rewrite exec_bind. unfold console_log at 1, modify at 1.
  rewrite exec_spawn, reconnectAudio_counts_once.
  - reflexivity.
  - intros n. apply wavtools_initAudio_reconnects.
Qed.

Lemma webaudio_probe_count (r : WebAudio.InitReplies) (w : World) :
  reconnects (exec (WebAudio.audioCheckInterval r) w) =
  if probe_detects w then S (reconnects w) else reconnects w.
Proof.
  unfold WebAudio.audioCheckInterval, probe_detects.
  rewrite exec_bind. unfold get at 1. rewrite exec_bind.
  assert (Hresume : exists w1,
            match audioContext w with
            | Some Suspended => emit ContextResume
            | _ => ret tt
            end w = (Ok tt, w1) /\
            audioElement w1 = audioElement w /\ isPlaying w1 = isPlaying w /\
            reconnects w1 = reconnects w).
  { destruct (audioContext w) as [[| |] |];
      try (exists w; repeat split; reflexivity).
    eexists. split; [reflexivity |]. repeat split.
    unfold reconnects. simpl. rewrite filter_app, length_app. simpl. lia. }
  destruct Hresume as (w1 & -> & Hel & Hpl & Hrc).
  rewrite exec_bind. unfold get at 1. rewrite exec_bind. unfold get at 1.
  rewrite Hel, Hpl, <- Hrc.
  destruct (audioElement w) as [e |]; [| reflexivity].
  destruct ((readyState e =? 0) && isPlaying w); [| reflexivity].
  rewrite exec_bind. unfold console_log at 1, modify at 1.
  rewrite exec_spawn, reconnectAudio_counts_once.
  - reflexivity.
  - intros n. apply webaudio_initAudio_reconnects.
Qed.

(** *** The stored metadata holds strings *)

Lemma js_or_string (v : JsVal) (d : string) :
  exists s, js_or v (JString d) = JString s.
Proof.
  unfold js_or. destruct v as [| | s]; simpl.
  - exists d. reflexivity.
  - exists d. reflexivity.
  - destruct (negb (String.eqb s "")); [exists s | exists d]; reflexivity.
Qed.

Lemma defaulted_song_is_strings (payload : SongInfo) (w : World) :
  song_is_strings
    (set_currentSong
       {| title := js_or (title payload) (JString "Unknown Title");
          artist := js_or (artist payload) (JString "Unknown Artist") |} w).
Proof.
  destruct (js_or_string (title payload) "Unknown Title") as [t Ht].
  destruct (js_or_string (artist payload) "Unknown Artist") as [a Ha].
  exists t, a. simpl. rewrite Ht, Ha. reflexivity.
Qed.

Ltac frame_song :=
  first [ intros ? H; exact H | intros ? _; apply defaulted_song_is_strings ].

Lemma wavtools_song_is_strings (w : World) :
  Wavtools.reachable w -> song_is_strings w.
Proof.
  apply wavtools_reachable_ind.
  - exists "Loading...", "". reflexivity.
  - intros r win host.
    unfold Wavtools.onMount, Wavtools.initAudio, Wavtools.updateVisualization,
      typed_set.
    preserve_by ltac:(fail); frame_song.
  - intros ev. destruct ev;
      unfold Wavtools.handle, Wavtools.audioCheckInterval, Wavtools.initAudio,
        Wavtools.updateVisualization, typed_set.
    all: preserve_by ltac:(fail); frame_song.
Qed.

Lemma webaudio_song_is_strings (w : World) :
  WebAudio.reachable w -> song_is_strings w.
Proof.
  apply webaudio_reachable_ind.
  - exists "Loading...", "". reflexivity.
  - intros r win host.
    unfold WebAudio.onMount, WebAudio.initAudio, WebAudio.updateVisualization.
    preserve_by ltac:(fail); frame_song.
  - intros ev. destruct ev;
      unfold WebAudio.handle, WebAudio.audioCheckInterval, WebAudio.initAudio,
        WebAudio.updateVisualization, WebAudio.context_state_changes.
    all: preserve_by ltac:(fail); frame_song.
Qed.

Lemma legacy_song_is_strings (w : World) :
  Legacy.reachable w -> song_is_strings w.
Proof.
  apply legacy_reachable_ind.
  - exists "Loading...", "". reflexivity.
  - intros r win host response.
    unfold Legacy.onMount, Legacy.initAudio, Legacy.updateVisualization,
      Legacy.fetchCurrentSong.
    preserve_by ltac:(fail); frame_song.
  - intros ev. destruct ev;
      unfold Legacy.handle, Legacy.fetchCurrentSong,
        Legacy.updateVisualization.
    all: preserve_by ltac:(fail); frame_song.
Qed.

(** * The claims *)

(** C1. Every vector the per-tick update publishes has exactly 64 entries.
    In part_001 this holds whatever the analyser returns: 64 or more bins are
    cut to the first 64, fewer are followed by zeros up to 64, and a pull that
    throws leaves the previous vector; so every reachable page holds a vector
    of 64. In part_000 and routes/+page.svelte the update only truncates, and
    the analyser the page configures (FFT size 256) always yields 128 bins, so
    every reachable page holds 64 bars. *)
Theorem C1_published_vector_has_64_entries :
  (forall w, Wavtools.reachable w -> List.length (frequencyValues w) = 64) /\
  (forall w a values,
     audioAnalysis w = Some a ->
     let w' := exec (Wavtools.updateVisualization (Ok values)) w in
     List.length (frequencyValues w') = 64 /\
     (64 <= List.length values -> frequencyValues w' = firstn 64 values) /\
     (List.length values < 64 ->
      frequencyValues w' = values ++ repeat 0%Q (64 - List.length values))) /\
  (forall w, WebAudio.reachable w -> List.length (bars w) = 64) /\
  (forall w, Legacy.reachable w -> List.length (bars w) = 64).
Proof.
  split; [exact wavtools_reachable_vector64 |].
  split.
  - intros w a values Ha. cbv zeta.
    rewrite (wavtools_tick_values values w a Ha).
    destruct (64 <=? List.length values) eqn:E.
    + apply Nat.leb_le in E. split; [apply length_slice0_64, E |].
      split; [reflexivity | lia].
    + apply Nat.leb_gt in E. split.
      * rewrite length_app, repeat_length. lia.
      * split; [lia | reflexivity].
  - split.
    + intros w H. apply webaudio_reachable_bars64, H.
    + intros w H. apply legacy_reachable_bars64, H.
Qed.

Lemma C1_published_vector_witness :
  let w' :=
    exec (Wavtools.updateVisualization (Ok [1 # 2; 1 # 4; 1 # 8]))
      wavtools_stalled in
  (List.length (frequencyValues w') = 64 /\
   frequencyValues w' = [1 # 2; 1 # 4; 1 # 8] ++ repeat 0%Q 61) /\
  List.length (frequencyValues wavtools_stalled) = 64 /\
  List.length (bars webaudio_stalled) = 64.
Proof.
  destruct C1_published_vector_has_64_entries as (Hreach & Htick & Hweb & _).
  split; [| split].
  - destruct (Htick wavtools_stalled _ [1 # 2; 1 # 4; 1 # 8] eq_refl)
      as (Hlen & _ & Hpad).
    split; [exact Hlen | apply Hpad; simpl; lia].
  - apply Hreach.
    exists wavtools_fine, Fine, Fine,
      [Wavtools.MediaReady 4; Wavtools.MediaPlaying; Wavtools.MediaReady 0].
    reflexivity.
  - apply Hweb.
    exists webaudio_fine, Fine, Fine,
      [WebAudio.MediaReady 4; WebAudio.MediaPlaying; WebAudio.MediaReady 0].
    reflexivity.
Defined.

(** C2 (part_000). The claim asks that a reconnect cancels the pending
    animation frame before the new pipeline requests its first. part_000's
    [initAudio] never calls [cancelAnimationFrame]: when it succeeds, every
    frame that was pending is still pending beside the new one. On the
    stalled page the probe's reconnect leaves the old frame 1 pending beside
    the new frame 2, its trace holds no cancellation, and once both frames
    have fired two frames are pending again: two tick loops run side by side.
    (part_001 does cancel, see [wavtools_never_two_loops].) *)
Theorem C2_webaudio_reconnect_leaves_two_loops :
  (forall w first,
     frames
       (exec (WebAudio.initAudio
                {| WebAudio.close := Fine; WebAudio.create_context := Fine;
                   WebAudio.create_source := Fine; WebAudio.resume := Fine;
                   WebAudio.first_spectrum := first |}) w)
     = frames w ++ [nextFrame w]) /\
  (let w := exec (WebAudio.audioCheckInterval webaudio_fine) webaudio_stalled in
   frames webaudio_stalled = [1] /\
   probe_detects webaudio_stalled = true /\
   frames w = [1; 2] /\
   filter is_cancel (trace w) = [] /\
   frames (WebAudio.run
             [WebAudio.FrameFires 1 silence; WebAudio.FrameFires 2 silence] w)
   = [3; 4]).
Proof.
  split.
  - intros w first. apply (webaudio_initAudio_keeps_frames w first).
  - cbv zeta. repeat split; vm_compute; reflexivity.
Qed.

(** C3. A probe firing that finds an element with [readyState] 0 while
    [isPlaying] is set enters [reconnectAudio] exactly once, and no probe
    firing enters it more than once (part_001 and part_000). *)
Theorem C3_probe_triggers_one_reconnect (w : World) :
  (forall r, reconnects (exec (Wavtools.audioCheckInterval r) w)
             <= S (reconnects w)) /\
  (forall r, reconnects (exec (WebAudio.audioCheckInterval r) w)
             <= S (reconnects w)) /\
  (forall e,
     audioElement w = Some e -> readyState e = 0 -> isPlaying w = true ->
     (forall r, reconnects (exec (Wavtools.audioCheckInterval r) w)
                = S (reconnects w)) /\
     (forall r, reconnects (exec (WebAudio.audioCheckInterval r) w)
                = S (reconnects w))).
Proof.
  split; [| split].
  - intros r. rewrite wavtools_probe_count. destruct (probe_detects w); lia.
  - intros r. rewrite webaudio_probe_count. destruct (probe_detects w); lia.
  - intros e He Hready Hplaying.
    assert (Hd : probe_detects w = true).
    { unfold probe_detects. rewrite He, Hready, Hplaying. reflexivity. }
    split; intros r.
    + rewrite wavtools_probe_count, Hd. reflexivity.
    + rewrite webaudio_probe_count, Hd. reflexivity.
Qed.

Lemma C3_probe_witness :
  reconnects (exec (Wavtools.audioCheckInterval wavtools_no_analyser)
                wavtools_stalled)
  = S (reconnects wavtools_stalled) /\
  reconnects (exec (WebAudio.audioCheckInterval webaudio_fine) webaudio_stalled)
  = S (reconnects webaudio_stalled).
Proof.
  pose (el := {| src := streamUrl; crossOrigin := Some "anonymous";
                 volume := 8 # 10; readyState := 0; paused := false |}).
  split.
  - destruct (C3_probe_triggers_one_reconnect wavtools_stalled) as (_ & _ & H).
    refine (proj1 (H el _ _ _) wavtools_no_analyser);
      vm_compute; reflexivity.
  - destruct (C3_probe_triggers_one_reconnect webaudio_stalled) as (_ & _ & H).
    refine (proj2 (H el _ _ _) webaudio_fine);
      vm_compute; reflexivity.
Defined.

(** C4. An inbound metadata update stores the sentinel for a field that is
    [null] or absent: [{title: null, artist: "X"}] is stored as
    [{title: "Unknown Title", artist: "X"}], an absent artist is stored as
    "Unknown Artist"; the same holds for the first source of the polled status
    document; and on every reachable page of every revision both stored fields
    are strings. *)
Theorem C4_metadata_defaults (w : World) (payload : SongInfo) :
  let stored := currentSong (exec (on_song_info_update payload) w) in
  (title payload = JNull \/ title payload = JUndefined ->
   title stored = JString "Unknown Title") /\
  (artist payload = JNull \/ artist payload = JUndefined ->
   artist stored = JString "Unknown Artist") /\
  (forall x, truthy (artist payload) = true -> artist payload = x ->
             artist stored = x) /\
  (forall rest,
     currentSong
       (exec (Legacy.fetchCurrentSong
                (Legacy.FetchJson
                   {| Legacy.icestats :=
                        Some {| Legacy.source := Some (payload :: rest) |} |}))
          w) = stored) /\
  (exists t a, stored = {| title := JString t; artist := JString a |}) /\
  (Wavtools.reachable w \/ WebAudio.reachable w \/ Legacy.reachable w ->
   song_is_strings w).
Proof.
  cbv zeta. unfold on_song_info_update, exec, modify. simpl.
  split; [| split; [| split; [| split; [| split]]]].
  - intros [-> | ->]; reflexivity.
  - intros [-> | ->]; reflexivity.
  - intros x Ht <-. unfold js_or. rewrite Ht. reflexivity.
  - intros rest. reflexivity.
  - apply (defaulted_song_is_strings payload w).
  - intros [H | [H | H]].
    + apply wavtools_song_is_strings, H.
    + apply webaudio_song_is_strings, H.
    + apply legacy_song_is_strings, H.
Qed.

Lemma C4_metadata_defaults_witness :
  currentSong
    (exec (on_song_info_update {| title := JNull; artist := JString "X" |})
       wavtools_stalled)
  = {| title := JString "Unknown Title"; artist := JString "X" |} /\
  artist
    (currentSong
       (exec (on_song_info_update
                {| title := JString "Song"; artist := JUndefined |})
          wavtools_stalled))
  = JString "Unknown Artist".
Proof.
  split.
  - destruct (C4_metadata_defaults wavtools_stalled
                {| title := JNull; artist := JString "X" |})
      as (Ht & _ & Ha & _).
    specialize (Ht (or_introl eq_refl)).
    specialize (Ha (JString "X") eq_refl eq_refl).
    simpl in Ht, Ha. unfold on_song_info_update, exec, modify in *.
    simpl in *. rewrite Ht, Ha. reflexivity.
  - destruct (C4_metadata_defaults wavtools_stalled
                {| title := JString "Song"; artist := JUndefined |})
      as (_ & Ha & _).
    exact (Ha (or_intror eq_refl)).
Defined.

(** C5 (part_000 and part_001). The claim asks for another attempt 5 s
    after a failed one, indefinitely. The retry sits in the [catch] of
    [reconnectAudio], but [initAudio] catches every failure itself, so
    [reconnectAudio] always returns normally and leaves the timers as they
    were, in both revisions. On the stalled page a reconnect during which the
    analyser (part_001) or the audio context (part_000) cannot be constructed
    logs the failure, clears [isPlaying], schedules nothing, and leaves a
    page on which the probe no longer detects anything. *)
Theorem C5_failed_reconnect_schedules_no_retry :
  (forall r w,
     fst (reconnectAudio (Wavtools.initAudio r) w) = Ok tt /\
     timers (exec (reconnectAudio (Wavtools.initAudio r)) w) = timers w) /\
  (forall r w,
     fst (reconnectAudio (WebAudio.initAudio r) w) = Ok tt /\
     timers (exec (reconnectAudio (WebAudio.initAudio r)) w) = timers w) /\
  (let w := exec (reconnectAudio (Wavtools.initAudio wavtools_no_analyser))
              wavtools_stalled in
   logged_since wavtools_stalled w = true /\
   frames w = [] /\
   isPlaying w = false /\
   timers w = [] /\
   filter is_retry (trace w) = [] /\
   probe_detects w = false) /\
  (let w := exec (reconnectAudio (WebAudio.initAudio webaudio_no_context))
              webaudio_stalled in
   logged_since webaudio_stalled w = true /\
   isPlaying w = false /\
   timers w = [] /\
   filter is_retry (trace w) = [] /\
   probe_detects w = false).
Proof.
  split; [| split].
  - intros r w. apply reconnectAudio_schedules_nothing.
    + apply wavtools_initAudio_never_throws.
    + intros t. apply wavtools_initAudio_timers.
  - intros r w. apply reconnectAudio_schedules_nothing.
    + apply webaudio_initAudio_never_throws.
    + intros t. apply webaudio_initAudio_timers.
  - split; cbv zeta; repeat split; vm_compute; reflexivity.
Qed.

(** C6, as the code has it. Each setter assigns its variable before any
    call that can fail, so the variable holds the new value whatever the
    window and the host answer; the window call (pin, click-through) comes
    next and the host is invoked only after it succeeded; the theme colour has
    no window call. When a call fails the setter's promise rejects with that
    failure: the setter writes nothing to the console and leaves the variable
    at the new value. *)
Theorem C6_local_first_then_host (w : World) (win host : reply) :
  (forall flag,
     let res := setAlwaysOnTop win host flag w in
     isPinned (snd res) = flag /\
     trace (snd res) =
       trace w ++ WindowSetAlwaysOnTop flag ::
         match win with
         | Fine => [Invoke "set_always_on_top" (ArgFlag flag)]
         | Fails _ => []
         end /\
     console (snd res) = console w /\
     fst res =
       match win, host with
       | Fine, Fine => Ok tt
       | Fine, Fails e => Throw e
       | Fails e, _ => Throw e
       end) /\
  (forall flag,
     let res := setMousePassthrough win host flag w in
     isMousePassthrough (snd res) = flag /\
     trace (snd res) =
       trace w ++ WindowSetIgnoreCursorEvents flag ::
         match win with
         | Fine => [Invoke "set_mouse_passthrough" (ArgFlag flag)]
         | Fails _ => []
         end /\
     console (snd res) = console w /\
     fst res =
       match win, host with
       | Fine, Fine => Ok tt
       | Fine, Fails e => Throw e
       | Fails e, _ => Throw e
       end) /\
  (forall color,
     let res := changeThemeColor host color w in
     themeColor (snd res) = color /\
     trace (snd res) =
       trace w ++ [Invoke "change_theme_color" (ArgColor color)] /\
     console (snd res) = console w /\
     fst res =
       match host with
       | Fine => Ok tt
       | Fails e => Throw e
       end).
Proof.
  split; [| split].
  - intros flag. unfold setAlwaysOnTop, bind, modify, emit, modify, await.
    destruct win, host; simpl; rewrite <- ?app_assoc; auto.
  - intros flag. unfold setMousePassthrough, bind, modify, emit, modify, await.
    destruct win, host; simpl; rewrite <- ?app_assoc; auto.
  - intros color. unfold changeThemeColor, bind, modify, emit, modify, await.
    destruct host; simpl; auto.
Qed.

(** C6, as the claim states it, fails where it says the failure is logged:
    un-pinning with a host that rejects the notification keeps the local
    change and rejects, and the console receives nothing. *)
Lemma C6_host_failure_is_not_logged :
  let res := setAlwaysOnTop Fine (Fails "host unreachable") false initial in
  fst res = Throw "host unreachable" /\
  isPinned (snd res) = false /\
  logged_since initial (snd res) = false.
Proof.
  cbv zeta. split; [| split]; reflexivity.
Qed.

(** C7. Two pin toggles in a row bring [isPinned] back to where it was,
    whatever the window and the host answer to either of them. *)
Theorem C7_pin_toggle_twice (w : World) (win1 host1 win2 host2 : reply) :
  isPinned (exec (click_pin win2 host2) (exec (click_pin win1 host1) w))
  = isPinned w /\
  isPinned (exec (click_pin win1 host1) w) = negb (isPinned w).
Proof.
  assert (H : forall win host w0,
            isPinned (exec (click_pin win host) w0) = negb (isPinned w0)).
  { intros win host w0.
    unfold click_pin, exec, bind, get, spawn, exec, setAlwaysOnTop, bind,
      modify, emit, modify, await.
    destruct win, host; reflexivity. }
  split.
  - rewrite !H. apply negb_involutive.
  - apply H.
Qed.

(** C8. Against the analyzer of the specification: two pulls with no new
    audio data in between return the same vector (the analyzer's last computed
    one), the two ticks publish the same 64 entries, and a tick returns
    without waiting on anything. *)
Theorem C8_sample_twice_same_vector
    (w : World) (a : AudioAnalysis) (an : Analyzer.t) (floor ceiling : Q) :
  audioAnalysis w = Some a ->
  let first := Analyzer.sample floor ceiling an in
  let second := Analyzer.sample floor ceiling (snd first) in
  let w1 := exec (Wavtools.updateVisualization (Ok (fst first))) w in
  let w2 := exec (Wavtools.updateVisualization (Ok (fst second))) w1 in
  fst second = fst first /\
  fst second = Analyzer.last (snd first) /\
  snd second = snd first /\
  frequencyValues w2 = frequencyValues w1 /\
  List.length (frequencyValues w2) = 64 /\
  fst (Wavtools.updateVisualization (Ok (fst first)) w) = Ok tt /\
  fst (Wavtools.updateVisualization (Ok (fst second)) w1) = Ok tt.
Proof.
  intros Ha first second w1 w2.
  assert (Hsame : fst second = fst first /\ snd second = snd first /\
                  fst second = Analyzer.last (snd first)).
  { subst second first. unfold Analyzer.sample.
    destruct (Analyzer.fresh an) as [inst |] eqn:E; simpl.
    - repeat split.
    - rewrite E. repeat split. }
  destruct Hsame as (Hv & Hs & Hl).
  assert (Ha1 : audioAnalysis w1 = Some a).
  { apply (wavtools_tick_keeps_analysis a (Ok (fst first)) w Ha). }
  assert (Heq : frequencyValues w2 = frequencyValues w1).
  { subst w2 w1. rewrite (wavtools_tick_values _ _ a Ha1).
    rewrite (wavtools_tick_values _ _ a Ha). rewrite Hv. reflexivity. }
  repeat split; try assumption.
  - rewrite Heq. apply (wavtools_tick_publishes_64 _ w a Ha).
  - apply wavtools_tick_returns.
  - apply wavtools_tick_returns.
Qed.

Lemma C8_sample_twice_witness :
  let first := Analyzer.sample (-100) (-30) analyzer_with_data in
  let second := Analyzer.sample (-100) (-30) (snd first) in
  let w1 :=
    exec (Wavtools.updateVisualization (Ok (fst first))) wavtools_stalled in
  let w2 := exec (Wavtools.updateVisualization (Ok (fst second))) w1 in
  fst second = fst first /\ frequencyValues w2 = frequencyValues w1.
Proof.
  destruct (C8_sample_twice_same_vector wavtools_stalled _ analyzer_with_data
              (-100) (-30) eq_refl) as (Hv & _ & _ & Hw & _).
  split; [exact Hv | exact Hw].
Defined.

(** C9. Each setter changes its own variable and nothing else of the page:
    the world it leaves is the one it found with that variable assigned and
    the calls it made appended to the trace; in particular the other two
    window-intent variables and the current song are as they were. *)
Theorem C9_setters_change_only_their_field (w : World) (win host : reply) :
  (forall flag,
     let w' := exec (setAlwaysOnTop win host flag) w in
     (exists calls, w' = set_trace (trace w ++ calls) (set_isPinned flag w)) /\
     isMousePassthrough w' = isMousePassthrough w /\
     themeColor w' = themeColor w /\
     currentSong w' = currentSong w) /\
  (forall flag,
     let w' := exec (setMousePassthrough win host flag) w in
     (exists calls,
        w' = set_trace (trace w ++ calls) (set_isMousePassthrough flag w)) /\
     isPinned w' = isPinned w /\
     themeColor w' = themeColor w /\
     currentSong w' = currentSong w) /\
  (forall color,
     let w' := exec (changeThemeColor host color) w in
     (exists calls, w' = set_trace (trace w ++ calls) (set_themeColor color w)) /\
     isPinned w' = isPinned w /\
     isMousePassthrough w' = isMousePassthrough w /\
     currentSong w' = currentSong w).
Proof.
  split; [| split].
  - intros flag.
    unfold setAlwaysOnTop, exec, bind, modify, emit, modify, await.
    destruct win, host; simpl; (split; [| auto]).
    + exists [WindowSetAlwaysOnTop flag;
              Invoke "set_always_on_top" (ArgFlag flag)].
      unfold set_trace, set_isPinned. simpl. rewrite <- app_assoc. reflexivity.
    + exists [WindowSetAlwaysOnTop flag;
              Invoke "set_always_on_top" (ArgFlag flag)].
      unfold set_trace, set_isPinned. simpl. rewrite <- app_assoc. reflexivity.
    + exists [WindowSetAlwaysOnTop flag]. reflexivity.
    + exists [WindowSetAlwaysOnTop flag]. reflexivity.
  - intros flag.
    unfold setMousePassthrough, exec, bind, modify, emit, modify, await.
    destruct win, host; simpl; (split; [| auto]).
    + exists [WindowSetIgnoreCursorEvents flag;
              Invoke "set_mouse_passthrough" (ArgFlag flag)].
      unfold set_trace, set_isMousePassthrough. simpl.
      rewrite <- app_assoc. reflexivity.
    + exists [WindowSetIgnoreCursorEvents flag;
              Invoke "set_mouse_passthrough" (ArgFlag flag)].
      unfold set_trace, set_isMousePassthrough. simpl.
      rewrite <- app_assoc. reflexivity.
    + exists [WindowSetIgnoreCursorEvents flag]. reflexivity.
    + exists [WindowSetIgnoreCursorEvents flag]. reflexivity.
  - intros color.
    unfold changeThemeColor, exec, bind, modify, emit, modify, await.
    destruct host; simpl; (split; [| auto]);
      exists [Invoke "change_theme_color" (ArgColor color)]; reflexivity.
Qed.

(** C10. A [song-info-update] overwrites both stored fields: what is stored
    afterwards does not depend on what was stored before, and a payload that
    carries a title and no artist stores that title with "Unknown Artist". *)
Theorem C10_update_replaces_wholesale (w1 w2 : World) (payload : SongInfo) :
  currentSong (exec (on_song_info_update payload) w1)
  = currentSong (exec (on_song_info_update payload) w2) /\
  (forall t,
     title payload = JString t -> t <> "" -> artist payload = JUndefined ->
     currentSong (exec (on_song_info_update payload) w1)
     = {| title := JString t; artist := JString "Unknown Artist" |}).
Proof.
  split; [reflexivity |].
  intros t Ht Hne Ha. unfold on_song_info_update, exec, modify. simpl.
  rewrite Ht, Ha. unfold js_or. simpl.
  destruct (String.eqb_spec t ""); [contradiction | reflexivity].
Qed.

Lemma C10_update_replaces_witness :
  artist (currentSong wavtools_with_artist) = JString "Old Artist" /\
  currentSong
    (exec (on_song_info_update
             {| title := JString "Second"; artist := JUndefined |})
       wavtools_with_artist)
  = {| title := JString "Second"; artist := JString "Unknown Artist" |}.
Proof.
  split; [reflexivity |].
  apply (proj2 (C10_update_replaces_wholesale wavtools_with_artist initial
                  {| title := JString "Second"; artist := JUndefined |})
           "Second" eq_refl).
  - discriminate.
  - reflexivity.
Defined.
